(** * A7-Vault: client-side encryption, vault handlers and admin panel

    A shallow embedding of the dashboard component
    ([DashboardView], current and previous revision) and of the admin
    panel ([AdminPanel]).  Asynchronous handlers are programs over the
    calls they make to the browser, to the hosted backend and to the two
    cipher libraries; a run of a program against an environment yields the
    trace of calls with their answers and the completion of the handler. *)

From Stdlib Require Import ZArith Lia.
From stdpp Require Import base list strings pretty.

Local Open Scope Z_scope.

(** ** JavaScript values *)

(** A thrown value: the handlers only ever read [message]. *)
Record JsError := mkError { err_name : string; message : string }.

(** Completion of an awaited call or of an [async] function. *)
Inductive completion (A : Type) : Type :=
| Normal (a : A)
| Throw (err : JsError).
Arguments Normal {A} a.
Arguments Throw {A} err.

(** [ToInt32] of an integral number. *)
Definition ToInt32 (x : Z) : Z := (x + 2 ^ 31) mod 2 ^ 32 - 2 ^ 31.

(** [x >> n] and [x & y] on integral numbers. *)
Definition js_sar (x n : Z) : Z := Z.shiftr (ToInt32 x) (Z.land n 31).
Definition js_and (x y : Z) : Z := ToInt32 (Z.land (ToInt32 x) (ToInt32 y)).

(** Bytes are integers; a [Uint8Array] is a list of them and a store
    truncates with [ToUint8]. *)
Definition ToUint8 (x : Z) : Z := x mod 256.
Definition is_byte (b : Z) : Prop := 0 <= b < 256.

(** ** [convertWordArrayToUint8Array] *)

Record WordArray := mkWordArray { words : list Z; sigBytes : Z }.

(** A JavaScript array has fewer than 2^32 elements. *)
Definition js_array {A} (l : list A) : Prop := Z.of_nat (length l) < 2 ^ 32.

(** [Number.MAX_SAFE_INTEGER], the largest length [new Uint8Array(len)]
    takes before it throws. *)
Definition MAX_SAFE_INTEGER : Z := 2 ^ 53 - 1.

(** What [new Uint8Array(len)] throws for a length that is negative or
    above [MAX_SAFE_INTEGER].  The name is the language's; the message is
    the engine's and carries the length, here in the words of V8, for a
    length that prints in decimal. *)
Definition RangeError (len : Z) : JsError :=
  mkError "RangeError" ("Invalid typed array length: " +:+ pretty len).

(** [if (offset < len) u8[offset++] = b;] *)
Definition store_next (len : Z) (st : list Z * nat) (b : Z) : list Z * nat :=
  let '(u8, offset) := st in
  if Z.of_nat offset <? len
  then (<[offset := ToUint8 b]> u8, S offset)
  else (u8, offset).

(** Body of the [for] loop for one word. *)
Definition word_step (len : Z) (st : list Z * nat) (word : Z) : list Z * nat :=
  let byte1 := js_and (js_sar word 24) 255 in
  let byte2 := js_and (js_sar word 16) 255 in
  let byte3 := js_and (js_sar word 8) 255 in
  let byte4 := js_and word 255 in
  let st := store_next len st byte1 in
  let st := store_next len st byte2 in
  let st := store_next len st byte3 in
  store_next len st byte4.

(** The array is allocated before the loop runs, and the allocation
    throws for a length that is no index.  Memory is not modelled: an
    allocation of a length in range succeeds. *)
Definition convertWordArrayToUint8Array (wordArray : WordArray)
  : completion (list Z) :=
  let len := sigBytes wordArray in
  if (len <? 0) || (MAX_SAFE_INTEGER <? len) then Throw (RangeError len)
  else
    let u8 := replicate (Z.to_nat len) 0 in
    Normal (fst (fold_left (word_step len) (words wordArray) (u8, 0%nat))).

(** State of the loop once the bytes [pre] have been offered to an
    array of [n] bytes. *)
Definition filled (n : nat) (pre : list Z) : list Z * nat :=
  (take n pre ++ replicate (n - length pre) 0, min (length pre) n).

(** Big-endian serialization, written from its description: the four
    bytes of the 32-bit pattern of a word, most significant first, and
    their concatenation over the word list. *)
Definition be32 (w : Z) : list Z :=
  let u := w mod 2 ^ 32 in
  [u / 2 ^ 24; (u / 2 ^ 16) mod 256; (u / 2 ^ 8) mod 256; u mod 256].

Definition be_serialize (ws : list Z) : list Z := concat (map be32 ws).

(** ** Data of the dashboard and of the backend *)

Record User := mkUser { user_id : string; user_email : string }.

Record File := mkFile {
  file_name : string;
  file_type : string;
  file_bytes : list Z
}.

(** [file.size] *)
Definition file_size (f : File) : Z := Z.of_nat (length (file_bytes f)).

Record Blob := mkBlob { blob_bytes : list Z; blob_type : string }.

Record Metadata := mkMetadata {
  originalType : option string;
  encrypted : option string;
  size : Z
}.

Record FileObject := mkFileObject {
  fo_name : string;
  fo_id : option string;
  fo_created_at : string;
  fo_metadata : option Metadata
}.

(** State of [userProfile] in the dashboard: both fields are [string]. *)
Record UserProfile := mkUserProfile { role : string; status : string }.

(** Row of the [profiles] table as the admin panel holds it.  The literal
    union on [status] is erased at run time and [updateUserStatus] stores
    any string, so the field is a string here as well. *)
Record Profile := mkProfile {
  id : string;
  email : string;
  p_role : string;
  p_status : string;
  created_at : string
}.

Record LogEntry := mkLogEntry {
  log_user_id : string;
  action : string;
  log_file_name : string;
  details : string
}.

Record UploadOptions := mkUploadOptions {
  upsert : bool;
  contentType : string;
  meta_originalType : string;
  meta_encrypted : string
}.

(** Result object [{ data, error }] of the backend client. *)
Inductive Response (A : Type) : Type :=
| Data (d : A)
| Error (e : JsError).
Arguments Data {A} d.
Arguments Error {A} e.

Inductive ToastType := success | error.
Record Toast := mkToast { toast_type : ToastType; toast_message : string }.

(** The callbacks handed to [setTimeout]. *)
Inductive TimerCallback := ClearToast.

(** An imported key is a handle on its raw material. *)
Record CryptoKey := mkCryptoKey { key_algorithm : string; key_raw : list Z }.

(** ** Calls made by the components *)

Inductive call : Type :=
(* component state *)
| SetToast (t : option Toast)
| SetTimeout (cb : TimerCallback) (ms : Z)
| SetUploading (b : bool)
| SetLoadingFiles (b : bool)
| SetFiles (fs : list FileObject)
| SetUserProfile (p : UserProfile)
| SetLoadingProfile (b : bool)
| SetPreviewing (b : bool)
| SetPreviewName (n : option string)
| SetPreviewUrl (u : option string)
| SetUsers (us : list Profile)
| SetActionLoading (a : option string)
| SetLoading (b : bool)
| SetNewUserEmail (v : string)
| SetNewUserPassword (v : string)
| SetIsAddingUser (b : bool)
(* browser *)
| ConsoleError (label : string) (e : JsError)
| ConsoleWarn (label : string) (e : JsError)
| ConsoleLog (label : string) (v : string)
| Confirm (msg : string)
| Alert (msg : string)
| Sleep (ms : Z)
| CreateObjectURL (b : Blob)
| AnchorDownload (url name : string)
| BlobText (bytes : list Z)
| BlobArrayBuffer (bytes : list Z)
| FileArrayBuffer (file : File)
(* storage bucket *)
| StorageList (bucket prefix : string)
| StorageUpload (bucket path : string) (body : Blob) (opts : UploadOptions)
| StorageDownload (bucket path : string)
| StorageRemove (bucket : string) (paths : list string)
(* tables, remote procedure, sign-up *)
| ProfilesSelectRoleStatus (uid : string)
| ProfilesSelectAll
| ProfilesUpdateStatus (uid new_status : string)
| AccessLogsInsert (entry : LogEntry)
| RpcDeleteUserByAdmin (target_user_id : string)
| AuthSignUp (mail password data_status : string)
(* Web Crypto and CryptoJS *)
| GetRandomValues (n : nat)
| SubtleDigest (algorithm : string) (data : list Z)
| SubtleImportKey (format : string) (raw : list Z) (algorithm : string)
| SubtleEncrypt (key : CryptoKey) (iv data : list Z)
| SubtleDecrypt (key : CryptoKey) (iv data : list Z)
| CryptoJSAESDecrypt (text passphrase : string).

(** What a call answers.  A promise that may reject answers a
    [completion]; a backend promise fulfils with a [Response].  A blob and
    a file hold their bytes, so [arrayBuffer()] answers only whether the
    read was fulfilled, with those bytes, or rejected. *)
Definition answer (c : call) : Type :=
  match c with
  | Confirm _ => bool
  | CreateObjectURL _ => string
  | BlobText _ => completion string
  | BlobArrayBuffer _ => completion unit
  | FileArrayBuffer _ => completion unit
  | StorageList _ _ => completion (Response (list FileObject))
  | StorageUpload _ _ _ _ => completion (Response unit)
  | StorageDownload _ _ => completion (Response Blob)
  | StorageRemove _ _ => completion (Response unit)
  | ProfilesSelectRoleStatus _ => completion (Response UserProfile)
  | ProfilesSelectAll => completion (Response (list Profile))
  | ProfilesUpdateStatus _ _ => completion (Response unit)
  | AccessLogsInsert _ => completion (Response unit)
  | RpcDeleteUserByAdmin _ => completion (Response unit)
  | AuthSignUp _ _ _ => completion (Response (option User))
  | GetRandomValues _ => list Z
  | SubtleDigest _ _ => completion (list Z)
  | SubtleImportKey _ _ _ => completion CryptoKey
  | SubtleEncrypt _ _ _ => completion (list Z)
  | SubtleDecrypt _ _ _ => completion (list Z)
  | CryptoJSAESDecrypt _ _ => completion WordArray
  | _ => unit
  end.

(** ** Programs *)

Inductive Prog (R : Type) : Type :=
| Ret (r : R)
| Do (c : call) (k : answer c -> Prog R).
Arguments Ret {R} r.
Arguments Do {R} c k.

Fixpoint bind {A B} (p : Prog A) (f : A -> Prog B) : Prog B :=
  match p with
  | Ret a => f a
  | Do c k => Do c (fun x => bind (k x) f)
  end.

(** An [async] function: a program that completes normally or throws. *)
Definition Async (A : Type) : Type := Prog (completion A).

Definition ret {A} (a : A) : Async A := Ret (Normal a).
Definition throw {A} (e : JsError) : Async A := Ret (Throw e).

Definition bindA {A B} (p : Async A) (f : A -> Async B) : Async B :=
  bind p (fun c => match c with Normal a => f a | Throw e => Ret (Throw e) end).

(** [try { body } catch (e) { handler }] *)
Definition try_catch {A} (body : Async A) (handler : JsError -> Async A) : Async A :=
  bind body (fun c => match c with Normal a => Ret (Normal a) | Throw e => handler e end).

(** [try { body } finally { fin }] *)
Definition try_finally {A} (body : Async A) (fin : Async unit) : Async A :=
  bind body (fun c =>
  bind fin (fun d => match d with Normal _ => Ret c | Throw e => Ret (Throw e) end)).

(** A call whose answer is plain, and an awaited call. *)
Definition perform (c : call) : Async (answer c) := Do c (fun x => Ret (Normal x)).
Definition await (c : call) : Prog (answer c) := Do c (fun x => Ret x).

Notation "'let!' x ':=' p 'in' q" := (bindA p (fun x => q))
  (at level 10, x name, p at level 100, q at level 200).
Notation "p ';;' q" := (bindA p (fun _ => q))
  (at level 100, q at level 200, right associativity).

(** [if (error) throw error;] followed by the use of [data]. *)
Definition unwrap {A} (r : Response A) : Async A :=
  match r with Data d => ret d | Error e => throw e end.

(** ** Runs *)

Record Event := Ev { ev_call : call; ev_answer : answer ev_call }.

(** An environment answers every call from its own state. *)
Definition Env (S : Type) : Type := forall c : call, S -> answer c * S.

Fixpoint run {S R} (env : Env S) (p : Prog R) (s : S) : list Event * R :=
  match p with
  | Ret r => ([], r)
  | Do c k =>
      let '(x, s') := env c s in
      let '(tr, r) := run env (k x) s' in
      (Ev c x :: tr, r)
  end.

Definition trace_of {S R} (env : Env S) (p : Prog R) (s : S) : list Event :=
  fst (run env p s).
Definition result_of {S R} (env : Env S) (p : Prog R) (s : S) : R :=
  snd (run env p s).

(** ** The dashboard, current revision *)

(** [TextEncoder.encode]: strings are held as their UTF-8 bytes. *)
Definition TextEncoder_encode (s : string) : list Z :=
  map (fun a => Z.of_N (Ascii.N_of_ascii a)) (String.list_ascii_of_string s).

(** [String.fromCharCode(...bytes)] for the elements of a [Uint8Array]. *)
Definition fromCharCode (bytes : list Z) : string :=
  String.string_of_list_ascii (map (fun b => Ascii.ascii_of_N (Z.to_N b)) bytes).

(** [e.message || fallback] *)
Definition message_or (e : JsError) (fallback : string) : string :=
  if (message e =? "")%string then fallback else message e.

Module Dashboard.
Section DashboardView.

(** [user] of [useAuth()]. *)
Variable user : option User.
(** [formatSize] goes through floating-point logarithms and is left
    uninterpreted; so is the choice of the MIME type of a preview. *)
Variable formatSize : Z -> string.
Variable previewBlobType : string -> string -> string.

(** [user?.id] inside a template or a concatenation. *)
Definition user_id_text : string :=
  match user with Some u => user_id u | None => "undefined" end.

(** [user?.id || 'default-secret-key'] *)
Definition ENCRYPTION_KEY : string :=
  match user with
  | Some u => if (user_id u =? "")%string then "default-secret-key" else user_id u
  | None => "default-secret-key"
  end.

Definition bucketName : string := "emergency-tools".

Definition showToast (type : ToastType) (msg : string) : Async unit :=
  perform (SetToast (Some (mkToast type msg))) ;;
  perform (SetTimeout ClearToast 3000).

Definition fetchProfile : Async unit :=
  match user with
  | None => ret tt
  | Some u =>
      perform (SetLoadingProfile true) ;;
      try_finally
        (try_catch
           (let! r := await (ProfilesSelectRoleStatus (user_id u)) in
            match r with
            | Error e => perform (ConsoleError "Error fetching profile:" e)
            | Data data =>
                perform (SetUserProfile data) ;;
                if (status data =? "approved")%string
                then showToast success "Profile Approved! Welcome."
                else ret tt
            end)
           (fun e => perform (ConsoleError "Error fetching profile" e)))
        (perform (SetLoadingProfile false))
  end.

Definition logAction (act fileName dets : string) : Async unit :=
  match user with
  | None => ret tt
  | Some u =>
      try_catch
        (let! _ := await (AccessLogsInsert (mkLogEntry (user_id u) act fileName dets)) in
         ret tt)
        (fun e => perform (ConsoleError "Logging failed:" e))
  end.

(** [fetchFiles] catches whatever its request throws, so it never
    rejects.  The handlers below call it without [await]; here it runs
    in place, which only moves its calls before those of the caller's
    [finally] block. *)
Definition fetchFiles : Async unit :=
  try_finally
    (try_catch
       (let! r := await (StorageList bucketName (user_id_text +:+ "/")) in
        let! data := unwrap r in
        perform (SetFiles data))
       (fun e => perform (ConsoleError "Error fetching files:" e)))
    (perform (SetLoadingFiles false)).

(** The effect that loads the file list. *)
Definition filesEffect (userProfile : option UserProfile) : Async unit :=
  match user, userProfile with
  | Some _, Some p => if (status p =? "approved")%string then fetchFiles else ret tt
  | _, _ => ret tt
  end.

Definition getCryptoKey (secret : string) : Async CryptoKey :=
  let keyData := TextEncoder_encode secret in
  let! hash := await (SubtleDigest "SHA-256" keyData) in
  await (SubtleImportKey "raw" hash "AES-GCM").

Definition encryptFile (file : File) : Async Blob :=
  let! key := getCryptoKey ENCRYPTION_KEY in
  let! iv := perform (GetRandomValues 12) in
  let! _ := await (FileArrayBuffer file) in
  let fileBuffer := file_bytes file in
  let! encryptedBuffer := await (SubtleEncrypt key iv fileBuffer) in
  ret (mkBlob (iv ++ encryptedBuffer) "application/octet-stream").

Definition decryptFile (blob : Blob) : Async Blob :=
  try_catch
    (let! _ := await (BlobArrayBuffer (blob_bytes blob)) in
     let buffer := blob_bytes blob in
     let firstBytes := take 10 buffer in
     let header := fromCharCode firstBytes in
     if (header =? "U2FsdGVkX1")%string
     then throw (mkError "Error" "Legacy Format Detected")
     else
       let! key := getCryptoKey ENCRYPTION_KEY in
       let iv := take 12 buffer in
       let data := drop 12 buffer in
       let! decryptedBuffer := await (SubtleDecrypt key iv data) in
       ret (mkBlob decryptedBuffer ""))
    (fun e =>
       perform (ConsoleWarn "Attempting Legacy Decryption..." e) ;;
       let! text := await (BlobText (blob_bytes blob)) in
       let! decrypted := await (CryptoJSAESDecrypt text ENCRYPTION_KEY) in
       let! typedArray := Ret (convertWordArrayToUint8Array decrypted) in
       ret (mkBlob typedArray "")).

Definition MAX_FILE_SIZE : Z := 50 * 1024 * 1024.

Definition handleFileUpload (file : File) : Async unit :=
  match user with
  | None => ret tt
  | Some u =>
      if file_size file >? MAX_FILE_SIZE
      then
        showToast error
          ("File too large (" +:+ formatSize (file_size file)
           +:+ "). Limit is 50MB for browser encryption.")
      else
        perform (SetUploading true) ;;
        showToast success "Processing encryption..." ;;
        perform (Sleep 500) ;;
        try_finally
          (try_catch
             (let! encryptedBlob :=
                try_catch (encryptFile file)
                  (fun encError =>
                     perform (ConsoleError "Encryption Memory Error" encError) ;;
                     throw (mkError "Error"
                       "Phone ran out of memory during encryption. Try a smaller file.")) in
              let filePath := user_id u +:+ "/" +:+ file_name file in
              let! r := await (StorageUpload bucketName filePath encryptedBlob
                                 (mkUploadOptions true "application/encrypted"
                                    (file_type file) "true")) in
              unwrap r ;;
              logAction "UPLOAD" (file_name file)
                ("Size: " +:+ pretty (file_size file) +:+ " bytes") ;;
              showToast success ("Encrypted & Uploaded " +:+ file_name file) ;;
              fetchFiles)
             (fun err =>
                perform (ConsoleError "Upload failed:" err) ;;
                showToast error (message_or err "Upload failed. Try a smaller file.")))
          (perform (SetUploading false))
  end.

(** The two calls on the click event, [preventDefault] and
    [stopPropagation], are left out. *)
Definition handlePreview (fileName : string) (origType : option string) : Async unit :=
  let originalType := default "image/png" origType in
  perform (ConsoleLog "Starting preview for:" fileName) ;;
  perform (SetPreviewing true) ;;
  perform (SetPreviewName (Some fileName)) ;;
  try_finally
    (try_catch
       (let! r := await (StorageDownload bucketName (user_id_text +:+ "/" +:+ fileName)) in
        let! data := unwrap r in
        let! finalBlob :=
          try_catch (decryptFile data)
            (fun e => perform (ConsoleWarn "Decryption failed for preview" e) ;; ret data) in
        let blobType := previewBlobType fileName originalType in
        let! url := perform (CreateObjectURL (mkBlob (blob_bytes finalBlob) blobType)) in
        perform (SetPreviewUrl (Some url)))
       (fun err =>
          perform (ConsoleError "Preview Error" err) ;;
          showToast error "Failed to load preview" ;;
          perform (SetPreviewName None)))
    (perform (SetPreviewing false)).

Definition handleDownload (fileName : string) (origType : option string) : Async unit :=
  let originalType := default "application/octet-stream" origType in
  try_catch
    (let! r := await (StorageDownload bucketName (user_id_text +:+ "/" +:+ fileName)) in
     let! data := unwrap r in
     let! finalBlob :=
       try_catch
         (let! decryptedBlob := decryptFile data in
          showToast success "File Decrypted Successfully" ;;
          ret decryptedBlob)
         (fun e => perform (ConsoleWarn "Decryption failed" e) ;; ret data) in
     let! url := perform (CreateObjectURL (mkBlob (blob_bytes finalBlob) originalType)) in
     perform (AnchorDownload url fileName) ;;
     logAction "DOWNLOAD" fileName "")
    (fun err =>
       perform (ConsoleError "Download Error" err) ;;
       showToast error (message_or err "Download failed")).

Definition handleDelete (fileName : string) : Async unit :=
  let! confirmed :=
    perform (Confirm ("Are you sure you want to delete " +:+ fileName +:+ "?")) in
  if negb confirmed then ret tt
  else
    try_catch
      (let! r := await (StorageRemove bucketName [user_id_text +:+ "/" +:+ fileName]) in
       unwrap r ;;
       logAction "DELETE" fileName "" ;;
       showToast success "File deleted" ;;
       fetchFiles)
      (fun err => showToast error (message err)).

(** What the component returns, by the state that decides it. *)
Inductive Screen :=
| VerifyingAccess
| PendingApproval
| AccessDenied
| Vault (adminPanel : bool).

Definition render (loadingProfile : bool) (userProfile : option UserProfile) : Screen :=
  if loadingProfile then VerifyingAccess
  else
    match userProfile with
    | None => PendingApproval
    | Some p =>
        if (status p =? "pending")%string then PendingApproval
        else if (status p =? "rejected")%string then AccessDenied
        else Vault (role p =? "admin")%string
    end.

(** The gestures a screen wires to a handler. *)
Inductive Gesture :=
| CheckAgain
| DropOrPickFile (file : File)
| ClickView (fileName : string) (origType : option string)
| ClickDownload (fileName : string) (origType : option string)
| ClickDelete (fileName : string).


Definition blocking (screen : Screen) : bool :=
  match screen with Vault _ => false | _ => true end.

(** The asynchronous operations of the component. *)
Inductive Operation :=
| FetchProfile
| ListFiles
| LogAction (act fileName dets : string)
| UploadFile (file : File)
| PreviewFile (fileName : string) (origType : option string)
| DownloadFile (fileName : string) (origType : option string)
| DeleteFile (fileName : string).

Definition handler (op : Operation) : Async unit :=
  match op with
  | FetchProfile => fetchProfile
  | ListFiles => fetchFiles
  | LogAction act fileName dets => logAction act fileName dets
  | UploadFile file => handleFileUpload file
  | PreviewFile n t => handlePreview n t
  | DownloadFile n t => handleDownload n t
  | DeleteFile n => handleDelete n
  end.

(** The file an operation is about; listing is about the folder. *)
Definition operation_file_name (op : Operation) : string :=
  match op with
  | FetchProfile | ListFiles => ""
  | LogAction _ fileName _ => fileName
  | UploadFile file => file_name file
  | PreviewFile n _ | DownloadFile n _ | DeleteFile n => n
  end.

End DashboardView.
End Dashboard.

(** ** The dashboard, previous revision (CryptoJS only) *)

Module Previous.
Section DashboardView.

Variable user : option User.

Definition ENCRYPTION_KEY : string :=
  match user with
  | Some u => if (user_id u =? "")%string then "default-secret-key" else user_id u
  | None => "default-secret-key"
  end.

Definition decryptFile (blob : Blob) : Async Blob :=
  let! text := await (BlobText (blob_bytes blob)) in
  let! decrypted := await (CryptoJSAESDecrypt text ENCRYPTION_KEY) in
  let! typedArray := Ret (convertWordArrayToUint8Array decrypted) in
  ret (mkBlob typedArray "").

End DashboardView.
End Previous.

(** ** The admin panel *)

Module Admin.
Section AdminPanel.

(** State of the component at the time a handler is created. *)
Variable users : list Profile.
Variable newUserEmail newUserPassword : string.

Definition fetchUsers : Async unit :=
  try_finally
    (try_catch
       (let! r := await ProfilesSelectAll in
        let! data := unwrap r in
        perform (SetUsers data))
       (fun e => perform (ConsoleError "Error fetching users:" e)))
    (perform (SetLoading false)).

(** [{ ...u, status: newStatus }] *)
Definition with_status (u : Profile) (newStatus : string) : Profile :=
  mkProfile (id u) (email u) (p_role u) newStatus (created_at u).

Definition updateUserStatus (userId newStatus : string) : Async unit :=
  perform (SetActionLoading (Some userId)) ;;
  try_finally
    (try_catch
       (let! r := await (ProfilesUpdateStatus userId newStatus) in
        unwrap r ;;
        perform (SetUsers
          (map (fun u => if (id u =? userId)%string then with_status u newStatus else u)
               users)))
       (fun err =>
          perform (ConsoleError "Error updating status:" err) ;;
          perform (Alert "Failed to update status")))
    (perform (SetActionLoading None)).

Definition deleteUser (userId : string) : Async unit :=
  let! confirmed :=
    perform (Confirm "Are you sure you want to permanently delete this user?") in
  if negb confirmed then ret tt
  else
    perform (SetActionLoading (Some userId)) ;;
    try_finally
      (try_catch
         (let! r := await (RpcDeleteUserByAdmin userId) in
          unwrap r ;;
          perform (SetUsers (filter (fun u => id u ≠ userId) users)))
         (fun err =>
            perform (ConsoleError "Error deleting user:" err) ;;
            perform (Alert ("Error deleting user: " +:+ message err))))
      (perform (SetActionLoading None)).

Definition handleAddUser : Async unit :=
  perform (SetActionLoading (Some "add_new")) ;;
  try_finally
    (try_catch
       (let! r := await (AuthSignUp newUserEmail newUserPassword "approved") in
        let! data_user := unwrap r in
        match data_user with
        | Some u =>
            perform (Sleep 1000) ;;
            let! _ := await (ProfilesUpdateStatus (user_id u) "approved") in
            perform (Alert "User added successfully!") ;;
            perform (SetNewUserEmail "") ;;
            perform (SetNewUserPassword "") ;;
            perform (SetIsAddingUser false) ;;
            fetchUsers
        | None => ret tt
        end)
       (fun err => perform (Alert ("Error adding user: " +:+ message err))))
    (perform (SetActionLoading None)).

(** The buttons of the actions cell of one table row. *)
Inductive RowButton := Approve | Reject | DeleteUser.

Definition rowButtons (row : Profile) : list RowButton :=
  if (p_role row =? "admin")%string then []
  else
    (if (p_status row =? "pending")%string then [Approve; Reject] else [])
    ++ [DeleteUser].

(** [disabled={!!actionLoading}] *)
Definition disabled (actionLoading : option string) : bool :=
  match actionLoading with
  | Some a => negb (a =? "")%string
  | None => false
  end.

Definition onClick (row : Profile) (b : RowButton) : Async unit :=
  match b with
  | Approve => updateUserStatus (id row) "approved"
  | Reject => updateUserStatus (id row) "rejected"
  | DeleteUser => deleteUser (id row)
  end.

(** A click on a button of the table: the row is one of [users], the
    button is rendered for it and is not disabled. *)
Definition clickable (actionLoading : option string) (row : Profile) (b : RowButton) : Prop :=
  row ∈ users ∧ b ∈ rowButtons row ∧ disabled actionLoading = false.

Inductive Operation :=
| FetchUsers
| UpdateUserStatus (userId newStatus : string)
| DeleteUserById (userId : string)
| AddUser.

Definition handler (op : Operation) : Async unit :=
  match op with
  | FetchUsers => fetchUsers
  | UpdateUserStatus userId newStatus => updateUserStatus userId newStatus
  | DeleteUserById userId => deleteUser userId
  | AddUser => handleAddUser
  end.

End AdminPanel.
End Admin.

(** ** Observations on traces *)

(** The signature of a file written by the previous revision: the first
    ten characters of the Base64 text of [Salted__]. *)
Definition LEGACY_SIGNATURE : list Z := TextEncoder_encode "U2FsdGVkX1".

Definition has_legacy_signature (blob : Blob) : Prop :=
  take 10 (blob_bytes blob) = LEGACY_SIGNATURE.

Definition toast_of (ev : Event) : option Toast :=
  match ev_call ev with
  | SetToast (Some t) => Some t
  | _ => None
  end.

Definition is_error_toast (ev : Event) : bool :=
  match toast_of ev with
  | Some (mkToast error _) => true
  | _ => false
  end.

Definition is_toast (ev : Event) : bool :=
  match toast_of ev with Some _ => true | None => false end.

(** The timer that clears the toast after three seconds. *)
Definition is_toast_timer (ev : Event) : bool :=
  match ev_call ev with
  | SetTimeout ClearToast ms => ms =? 3000
  | _ => false
  end.

(** Every toast of a trace is followed at once by its timer. *)
Fixpoint toasts_transient (tr : list Event) : bool :=
  match tr with
  | [] => true
  | ev :: rest =>
      (if is_toast ev
       then match rest with next :: _ => is_toast_timer next | [] => false end
       else true)
      && toasts_transient rest
  end.

Definition is_alert (ev : Event) : bool :=
  match ev_call ev with Alert _ => true | _ => false end.

Definition is_console_error (ev : Event) : bool :=
  match ev_call ev with ConsoleError _ _ => true | _ => false end.

(** The catch block of the current [decryptFile] opens with this warning. *)
Definition is_legacy_warning (ev : Event) : bool :=
  match ev_call ev with
  | ConsoleWarn label _ => (label =? "Attempting Legacy Decryption...")%string
  | _ => false
  end.

(** The calls of the CryptoJS decryption: the blob is read as text and
    the text is handed to [CryptoJS.AES.decrypt]. *)
Definition is_legacy_call (c : call) : bool :=
  match c with
  | BlobText _ | CryptoJSAESDecrypt _ _ => true
  | _ => false
  end.

(** A run takes the legacy path when it starts the CryptoJS decryption. *)
Definition legacy_path_taken (tr : list Event) : Prop :=
  existsb (fun ev => is_legacy_call (ev_call ev)) tr = true.

Definition completion_failed {A} (c : completion A) : bool :=
  match c with Throw _ => true | Normal _ => false end.

Definition response_failed {A} (c : completion (Response A)) : bool :=
  match c with
  | Throw _ => true
  | Normal (Error _) => true
  | Normal (Data _) => false
  end.

(** The call of an event was answered by a rejection or by an error
    result. *)
Definition failed (ev : Event) : bool :=
  match ev with
  | Ev c x =>
      match c as c' return answer c' -> bool with
      | BlobText _ => completion_failed
      | BlobArrayBuffer _ => completion_failed
      | FileArrayBuffer _ => completion_failed
      | StorageList _ _ => response_failed
      | StorageUpload _ _ _ _ => response_failed
      | StorageDownload _ _ => response_failed
      | StorageRemove _ _ => response_failed
      | ProfilesSelectRoleStatus _ => response_failed
      | ProfilesSelectAll => response_failed
      | ProfilesUpdateStatus _ _ => response_failed
      | AccessLogsInsert _ => response_failed
      | RpcDeleteUserByAdmin _ => response_failed
      | AuthSignUp _ _ _ => response_failed
      | SubtleDigest _ _ => completion_failed
      | SubtleImportKey _ _ _ => completion_failed
      | SubtleEncrypt _ _ _ => completion_failed
      | SubtleDecrypt _ _ _ => completion_failed
      | CryptoJSAESDecrypt _ _ => completion_failed
      | _ => fun _ => false
      end x
  end.

(** Calls of the AES-GCM attempt of [decryptFile]: the derivation of the
    key and the decryption itself. *)
Definition is_gcm_call (c : call) : bool :=
  match c with
  | SubtleDigest _ _ | SubtleImportKey _ _ _ | SubtleDecrypt _ _ _ => true
  | _ => false
  end.

Definition gcm_decryption_threw (tr : list Event) : Prop :=
  existsb (fun ev => is_gcm_call (ev_call ev) && failed ev) tr = true.

(** Calls to the backend and to the cipher libraries, as opposed to the
    component's own state and the browser's windows. *)
Definition is_storage_call (c : call) : bool :=
  match c with
  | StorageList _ _ | StorageUpload _ _ _ _ | StorageDownload _ _ | StorageRemove _ _ => true
  | _ => false
  end.

Definition is_table_call (c : call) : bool :=
  match c with
  | ProfilesSelectRoleStatus _ | ProfilesSelectAll | ProfilesUpdateStatus _ _
  | AccessLogsInsert _ | RpcDeleteUserByAdmin _ | AuthSignUp _ _ _ => true
  | _ => false
  end.

Definition is_crypto_call (c : call) : bool :=
  match c with
  | GetRandomValues _ | SubtleDigest _ _ | SubtleImportKey _ _ _
  | SubtleEncrypt _ _ _ | SubtleDecrypt _ _ _ | CryptoJSAESDecrypt _ _ => true
  | _ => false
  end.

Definition is_external_call (c : call) : bool :=
  is_storage_call c || is_table_call c || is_crypto_call c.

(** Key, initialization vector, data and answer of an AES-GCM call. *)
Definition GcmCall : Type := CryptoKey * list Z * list Z * completion (list Z).

(** A path under the folder of user [uid]: the folder itself for a
    listing, the object [name] in it for the other requests. *)
Definition scoped (uid name : string) (c : call) : Prop :=
  match c with
  | StorageList b prefix => b = "emergency-tools" /\ prefix = uid +:+ "/"
  | StorageUpload b path _ _ => b = "emergency-tools" /\ path = uid +:+ "/" +:+ name
  | StorageDownload b path => b = "emergency-tools" /\ path = uid +:+ "/" +:+ name
  | StorageRemove b paths => b = "emergency-tools" /\ paths = [uid +:+ "/" +:+ name]
  | _ => True
  end.

(** The requests that move or remove an object, the Web Crypto calls of
    an encryption, and the requests behind the admin's buttons. *)
Definition is_object_call (c : call) : bool :=
  match c with
  | StorageUpload _ _ _ _ | StorageDownload _ _ | StorageRemove _ _ => true
  | _ => false
  end.

Definition is_encryption_call (c : call) : bool :=
  match c with
  | SubtleDigest _ _ | SubtleImportKey _ _ _ | SubtleEncrypt _ _ _ => true
  | _ => false
  end.

(** [file.arrayBuffer()] in [encryptFile] and [blob.arrayBuffer()] in
    [decryptFile]. *)
Definition is_file_read (c : call) : bool :=
  match c with FileArrayBuffer _ => true | _ => false end.

Definition is_blob_read (c : call) : bool :=
  match c with BlobArrayBuffer _ => true | _ => false end.

Definition is_admin_request (c : call) : bool :=
  match c with
  | ProfilesUpdateStatus _ _ | RpcDeleteUserByAdmin _ | AuthSignUp _ _ _ => true
  | _ => false
  end.

Definition is_sign_up (c : call) : bool :=
  match c with AuthSignUp _ _ _ => true | _ => false end.

(** Some call selected by [sel] was answered by a failure. *)
Definition failed_call (sel : call -> bool) (tr : list Event) : bool :=
  existsb (fun ev => sel (ev_call ev) && failed ev) tr.

(** The calls of a trace that leave the browser's own state. *)
Definition external_calls (tr : list Event) : list call :=
  List.filter is_external_call (map ev_call tr).

Definition encrypt_call (ev : Event) : option GcmCall :=
  match ev with
  | Ev c x =>
      match c as c' return answer c' -> option GcmCall with
      | SubtleEncrypt key iv data => fun ct => Some (key, iv, data, ct)
      | _ => fun _ => None
      end x
  end.

Definition decrypt_call (ev : Event) : option GcmCall :=
  match ev with
  | Ev c x =>
      match c as c' return answer c' -> option GcmCall with
      | SubtleDecrypt key iv data => fun pt => Some (key, iv, data, pt)
      | _ => fun _ => None
      end x
  end.

Definition encrypt_calls (tr : list Event) := omap encrypt_call tr.
Definition decrypt_calls (tr : list Event) := omap decrypt_call tr.

(** The bytes read as text with the text answered, and the text and
    passphrase handed to CryptoJS with the word array answered. *)
Definition text_call (ev : Event) : option (list Z * completion string) :=
  match ev with
  | Ev c x =>
      match c as c' return answer c' -> option (list Z * completion string) with
      | BlobText bytes => fun text => Some (bytes, text)
      | _ => fun _ => None
      end x
  end.

Definition cryptojs_call (ev : Event)
  : option (string * string * completion WordArray) :=
  match ev with
  | Ev c x =>
      match c as c' return answer c' -> option (string * string * completion WordArray) with
      | CryptoJSAESDecrypt text passphrase => fun decrypted => Some (text, passphrase, decrypted)
      | _ => fun _ => None
      end x
  end.

(** [new Blob([typedArray])] of the converted word array, when the
    conversion does not throw. *)
Definition blob_of_words (decrypted : WordArray) : completion Blob :=
  match convertWordArrayToUint8Array decrypted with
  | Normal typedArray => Normal (mkBlob typedArray "")
  | Throw e => Throw e
  end.

(** Status updates sent to the [profiles] table, as (id, new status). *)
Definition status_update (ev : Event) : option (string * string) :=
  match ev_call ev with
  | ProfilesUpdateStatus uid st => Some (uid, st)
  | _ => None
  end.

Definition status_updates (tr : list Event) := omap status_update tr.

(** Lists handed to [setUsers]. *)
Definition users_set (ev : Event) : option (list Profile) :=
  match ev_call ev with
  | SetUsers us => Some us
  | _ => None
  end.

(** A property of the trace and of the completion of a run. *)
Definition post {S R} (env : Env S) (p : Prog R) (s : S)
  (Q : list Event -> R -> Prop) : Prop :=
  Q (trace_of env p s) (result_of env p s).

(** ** Assumptions on an environment *)

Section Environment.

Context {S : Type} (env : Env S).

(** The answer to a call does not depend on the state it is made in. *)
Definition deterministic (c : call) : Prop :=
  forall s s', fst (env c s) = fst (env c s').

(** [getRandomValues] fills the array it is given with bytes. *)
Definition random_fills : Prop :=
  forall n s, length (fst (env (GetRandomValues n) s)) = n
              /\ Forall is_byte (fst (env (GetRandomValues n) s)).

(** Web Crypto serves the calls the dashboard makes: a SHA-256 digest,
    which has 32 bytes; the import of 32 raw bytes as an AES-GCM key;
    AES-GCM encryption under such a key with a vector of 12 bytes.  The
    digest and the import are functions of their arguments, and AES-GCM
    decryption inverts encryption under the same key and vector. *)
Record WebCryptoWorks : Prop := {
  digest_works : forall data s, exists h,
      fst (env (SubtleDigest "SHA-256" data) s) = Normal h /\ length h = 32%nat;
  digest_deterministic : forall data, deterministic (SubtleDigest "SHA-256" data);
  importKey_works : forall raw s, length raw = 32%nat -> exists k,
      fst (env (SubtleImportKey "raw" raw "AES-GCM") s) = Normal k;
  importKey_deterministic : forall raw, deterministic (SubtleImportKey "raw" raw "AES-GCM");
  encrypt_works : forall raw s0 key iv data s,
      fst (env (SubtleImportKey "raw" raw "AES-GCM") s0) = Normal key ->
      length iv = 12%nat ->
      exists ct, fst (env (SubtleEncrypt key iv data) s) = Normal ct;
  decrypt_inverts_encrypt : forall key iv data ct s s',
      fst (env (SubtleEncrypt key iv data) s) = Normal ct ->
      fst (env (SubtleDecrypt key iv ct) s') = Normal data
}.

(** Reading a blob as text and the CryptoJS decryption are functions of
    their arguments. *)
Definition legacy_deterministic : Prop :=
  (forall bytes, deterministic (BlobText bytes))
  /\ (forall text pass, deterministic (CryptoJSAESDecrypt text pass)).

End Environment.

(** ** A small executable environment

    A backend that keeps a bucket and a profile table in memory, a
    stand-in for AES-GCM that has its shape (a keystream and a 16-byte
    tag checked on decryption) and a stand-in for the CryptoJS
    decryption.  It serves to run the handlers on concrete inputs. *)

Module Toy.

Record World := mkWorld {
  online : bool;
  entropy : list Z;
  bucket : list (string * Blob);
  profiles : list Profile
}.

Definition NetworkError : JsError := mkError "TypeError" "Failed to fetch".
Definition OperationError : JsError :=
  mkError "OperationError" "The operation failed for an operation-specific reason".

Definition sum_bytes (l : list Z) : Z := foldr Z.add 0 l.

Definition digest (data : list Z) : list Z := replicate 32 (sum_bytes data mod 256).

Definition keystream (key : CryptoKey) (iv : list Z) : Z :=
  (sum_bytes (key_raw key) + sum_bytes iv) mod 256.

Definition tag (key : CryptoKey) (iv pt : list Z) : list Z :=
  replicate 16 ((keystream key iv + sum_bytes pt) mod 256).

Definition seal (key : CryptoKey) (iv pt : list Z) : list Z :=
  map (Z.lxor (keystream key iv)) pt ++ tag key iv pt.

Definition unseal (key : CryptoKey) (iv ct : list Z) : completion (list Z) :=
  let n := (length ct - 16)%nat in
  let pt := map (Z.lxor (keystream key iv)) (take n ct) in
  if decide ((16 <= length ct)%nat /\ drop n ct = tag key iv pt)
  then Normal pt
  else Throw OperationError.

Fixpoint strip_prefix (p s : string) : option string :=
  match p, s with
  | EmptyString, _ => Some s
  | String a p', String b s' => if Ascii.eqb a b then strip_prefix p' s' else None
  | String _ _, EmptyString => None
  end.

(** Big-endian packing of bytes into 32-bit words, zero padded. *)
Fixpoint pack_words (bs : list Z) : list Z :=
  match bs with
  | b1 :: b2 :: b3 :: b4 :: rest =>
      ToInt32 (b1 * 2 ^ 24 + b2 * 2 ^ 16 + b3 * 2 ^ 8 + b4) :: pack_words rest
  | [b1; b2; b3] => [ToInt32 (b1 * 2 ^ 24 + b2 * 2 ^ 16 + b3 * 2 ^ 8)]
  | [b1; b2] => [ToInt32 (b1 * 2 ^ 24 + b2 * 2 ^ 16)]
  | [b1] => [ToInt32 (b1 * 2 ^ 24)]
  | [] => []
  end.

Definition legacy_decrypt (text passphrase : string) : WordArray :=
  let payload := default text (strip_prefix "U2FsdGVkX1" text) in
  let ks := sum_bytes (TextEncoder_encode passphrase) mod 256 in
  let bytes := map (Z.lxor ks) (TextEncoder_encode payload) in
  mkWordArray (pack_words bytes) (Z.of_nat (length bytes)).

Definition set_bucket (w : World) (b : list (string * Blob)) : World :=
  mkWorld (online w) (entropy w) b (profiles w).
Definition set_profiles (w : World) (ps : list Profile) : World :=
  mkWorld (online w) (entropy w) (bucket w) ps.
Definition set_entropy (w : World) (e : list Z) : World :=
  mkWorld (online w) e (bucket w) (profiles w).

Definition lookup_object (path : string) (w : World) : option Blob :=
  snd <$> find (fun o => (fst o =? path)%string) (bucket w).

Definition without (paths : list string) (b : list (string * Blob)) : list (string * Blob) :=
  filter (fun o => fst o ∉ paths) b.

Definition listing (prefix : string) (w : World) : list FileObject :=
  omap (fun o =>
          name ← strip_prefix prefix (fst o);
          Some (mkFileObject name None ""
                  (Some (mkMetadata None (Some "true")
                           (Z.of_nat (length (blob_bytes (snd o))))))))
       (bucket w).

(** Answers of the backend while the network is up. *)
Definition backend (c : call) (w : World) : answer c * World :=
  match c as c' return answer c' * World with
  | StorageList _ prefix => (Normal (Data (listing prefix w)), w)
  | StorageUpload _ path body _ =>
      (Normal (Data tt), set_bucket w ((path, body) :: without [path] (bucket w)))
  | StorageDownload _ path =>
      (Normal (match lookup_object path w with
               | Some blob => Data blob
               | None => Error (mkError "StorageApiError" "Object not found")
               end), w)
  | StorageRemove _ paths => (Normal (Data tt), set_bucket w (without paths (bucket w)))
  | ProfilesSelectRoleStatus uid =>
      (Normal (match find (fun p => (id p =? uid)%string) (profiles w) with
               | Some p => Data (mkUserProfile (p_role p) (p_status p))
               | None => Error (mkError "PostgrestError" "No rows found")
               end), w)
  | ProfilesSelectAll => (Normal (Data (profiles w)), w)
  | ProfilesUpdateStatus uid st =>
      (Normal (Data tt),
       set_profiles w
         (map (fun p => if (id p =? uid)%string
                        then mkProfile (id p) (email p) (p_role p) st (created_at p)
                        else p)
              (profiles w)))
  | AccessLogsInsert _ => (Normal (Data tt), w)
  | RpcDeleteUserByAdmin uid =>
      (Normal (Data tt), set_profiles w (filter (fun p => id p ≠ uid) (profiles w)))
  | AuthSignUp mail _ _ =>
      (Normal (Data (Some (mkUser mail mail))),
       set_profiles w (mkProfile mail mail "user" "pending" "" :: profiles w))
  | Confirm _ => (true, w)
  | CreateObjectURL _ => ("blob:object", w)
  | BlobText bytes => (Normal (fromCharCode bytes), w)
  | BlobArrayBuffer _ => (Normal tt, w)
  | FileArrayBuffer _ => (Normal tt, w)
  | GetRandomValues n =>
      (map ToUint8 (take n (entropy w ++ replicate n 0)), set_entropy w (drop n (entropy w)))
  | SubtleDigest _ data => (Normal (digest data), w)
  | SubtleImportKey _ raw alg => (Normal (mkCryptoKey alg raw), w)
  | SubtleEncrypt key iv data => (Normal (seal key iv data), w)
  | SubtleDecrypt key iv data => (unseal key iv data, w)
  | CryptoJSAESDecrypt text pass => (Normal (legacy_decrypt text pass), w)
  | _ => (tt, w)
  end.

(** Answers while the network is down: every request to the hosted
    backend rejects. *)
Definition unreachable (c : call) (w : World) : answer c * World :=
  match c as c' return answer c' * World with
  | StorageList _ _ => (Throw NetworkError, w)
  | StorageUpload _ _ _ _ => (Throw NetworkError, w)
  | StorageDownload _ _ => (Throw NetworkError, w)
  | StorageRemove _ _ => (Throw NetworkError, w)
  | ProfilesSelectRoleStatus _ => (Throw NetworkError, w)
  | ProfilesSelectAll => (Throw NetworkError, w)
  | ProfilesUpdateStatus _ _ => (Throw NetworkError, w)
  | AccessLogsInsert _ => (Throw NetworkError, w)
  | RpcDeleteUserByAdmin _ => (Throw NetworkError, w)
  | AuthSignUp _ _ _ => (Throw NetworkError, w)
  | c' => backend c' w
  end.

Definition env : Env World :=
  fun c w => if online w then backend c w else unreachable c w.

Definition alice : User := mkUser "alice" "alice@example.org".

Definition bob : Profile := mkProfile "bob" "bob@example.org" "user" "pending" "2024-01-02".
Definition carol : Profile :=
  mkProfile "carol" "carol@example.org" "user" "approved" "2024-01-01".
Definition staff : list Profile := [bob; carol].

(** A backend that holds the two profiles. *)
Definition office (up : bool) : World := mkWorld up [] [] staff.

Definition note : File := mkFile "note.txt" "text/plain" [104; 105].

(** A file of 50 MB and one byte. *)
Definition huge : File :=
  mkFile "movie.mp4" "video/mp4" (replicate (Z.to_nat 52428801) 0).

Definition some_iv : list Z := [1; 2; 3; 4; 5; 6; 7; 8; 9; 10; 11; 12].

(** Twelve random bytes that happen to spell the legacy signature. *)
Definition unlucky_iv : list Z := LEGACY_SIGNATURE ++ [0; 0].

(** A file of the previous revision: the signature and a payload. *)
Definition legacy_blob : Blob :=
  mkBlob (LEGACY_SIGNATURE ++ [63; 62; 61]) "text/plain".

Definition fresh (up : bool) (iv : list Z) : World := mkWorld up iv [] [].

Definition formatSize (bytes : Z) : string := pretty bytes +:+ " B".
Definition previewBlobType (fileName originalType : string) : string := originalType.

End Toy.

(** ** Further observations on traces *)

(** Reading the blob as text rejected, CryptoJS threw, or CryptoJS
    returned a word array whose [sigBytes] is no length of an array. *)
Definition legacy_decode_failed (ev : Event) : bool :=
  match ev with
  | Ev c x =>
      match c as c' return answer c' -> bool with
      | BlobText _ => completion_failed
      | CryptoJSAESDecrypt _ _ =>
          fun a => match a with
                   | Throw _ => true
                   | Normal wordArray =>
                       (sigBytes wordArray <? 0) || (MAX_SAFE_INTEGER <? sigBytes wordArray)
                   end
      | _ => fun _ => false
      end x
  end.

(** Some call selected by [sel] was answered without a failure. *)
Definition succeeded_call (sel : call -> bool) (tr : list Event) : bool :=
  existsb (fun ev => sel (ev_call ev) && negb (failed ev)) tr.

Definition digest_call (ev : Event) : option (string * list Z * completion (list Z)) :=
  match ev with
  | Ev c x =>
      match c as c' return answer c' -> option (string * list Z * completion (list Z)) with
      | SubtleDigest alg data => fun h => Some (alg, data, h)
      | _ => fun _ => None
      end x
  end.

Definition import_call (ev : Event)
  : option (string * list Z * string * completion CryptoKey) :=
  match ev with
  | Ev c x =>
      match c as c'
            return answer c' -> option (string * list Z * string * completion CryptoKey) with
      | SubtleImportKey fmt raw alg => fun k => Some (fmt, raw, alg, k)
      | _ => fun _ => None
      end x
  end.

Definition random_call (ev : Event) : option (nat * list Z) :=
  match ev with
  | Ev c x =>
      match c as c' return answer c' -> option (nat * list Z) with
      | GetRandomValues n => fun bytes => Some (n, bytes)
      | _ => fun _ => None
      end x
  end.

Definition upload_call (ev : Event) : option (string * string * Blob * UploadOptions) :=
  match ev_call ev with
  | StorageUpload b path body opts => Some (b, path, body, opts)
  | _ => None
  end.

Definition download_answer (ev : Event) : option (completion (Response Blob)) :=
  match ev with
  | Ev c x =>
      match c as c' return answer c' -> option (completion (Response Blob)) with
      | StorageDownload _ _ => fun a => Some a
      | _ => fun _ => None
      end x
  end.

(** Blobs handed to [createObjectURL], with the URLs answered. *)
Definition object_url (ev : Event) : option (Blob * string) :=
  match ev with
  | Ev c x =>
      match c as c' return answer c' -> option (Blob * string) with
      | CreateObjectURL b => fun url => Some (b, url)
      | _ => fun _ => None
      end x
  end.

(** Links clicked to save a file, as (URL, file name). *)
Definition anchor_call (ev : Event) : option (string * string) :=
  match ev_call ev with
  | AnchorDownload url name => Some (url, name)
  | _ => None
  end.

Definition log_entry (ev : Event) : option LogEntry :=
  match ev_call ev with
  | AccessLogsInsert entry => Some entry
  | _ => None
  end.

Definition alert_text (ev : Event) : option string :=
  match ev_call ev with
  | Alert msg => Some msg
  | _ => None
  end.

Definition profile_answer (ev : Event) : option (completion (Response UserProfile)) :=
  match ev with
  | Ev c x =>
      match c as c' return answer c' -> option (completion (Response UserProfile)) with
      | ProfilesSelectRoleStatus _ => fun a => Some a
      | _ => fun _ => None
      end x
  end.

Definition list_answer (ev : Event) : option (completion (Response (list FileObject))) :=
  match ev with
  | Ev c x =>
      match c as c' return answer c' -> option (completion (Response (list FileObject))) with
      | StorageList _ _ => fun a => Some a
      | _ => fun _ => None
      end x
  end.

Definition sign_up_call (ev : Event)
  : option (string * string * string * completion (Response (option User))) :=
  match ev with
  | Ev c x =>
      match c as c'
            return answer c'
                   -> option (string * string * string * completion (Response (option User)))
      with
      | AuthSignUp mail password data_status => fun a => Some (mail, password, data_status, a)
      | _ => fun _ => None
      end x
  end.

Definition status_update_answer (ev : Event) : option (completion (Response unit)) :=
  match ev with
  | Ev c x =>
      match c as c' return answer c' -> option (completion (Response unit)) with
      | ProfilesUpdateStatus _ _ => fun a => Some a
      | _ => fun _ => None
      end x
  end.

(** Ids named by the requests behind the buttons of a table row. *)
Definition admin_target (ev : Event) : option string :=
  match ev_call ev with
  | ProfilesUpdateStatus uid _ => Some uid
  | RpcDeleteUserByAdmin uid => Some uid
  | _ => None
  end.

Definition is_decrypted_toast (ev : Event) : bool :=
  match toast_of ev with
  | Some t => (toast_message t =? "File Decrypted Successfully")%string
  | None => false
  end.

(** ** State of the dashboard

    The state variables the handlers set, with the values [useState]
    gives them, and the effect of a trace on them.  The timer of a toast
    fires after the handler and is not applied. *)

Record DashState := mkDashState {
  d_files : list FileObject;
  d_uploading : bool;
  d_loadingFiles : bool;
  d_toast : option Toast;
  d_userProfile : option UserProfile;
  d_loadingProfile : bool;
  d_previewUrl : option string;
  d_previewName : option string;
  d_previewing : bool
}.

Definition d_initial : DashState :=
  mkDashState [] false true None None true None None false.

Definition d_set (st : DashState) (c : call) : DashState :=
  match c with
  | SetFiles fs =>
      mkDashState fs (d_uploading st) (d_loadingFiles st) (d_toast st) (d_userProfile st)
        (d_loadingProfile st) (d_previewUrl st) (d_previewName st) (d_previewing st)
  | SetUploading b =>
      mkDashState (d_files st) b (d_loadingFiles st) (d_toast st) (d_userProfile st)
        (d_loadingProfile st) (d_previewUrl st) (d_previewName st) (d_previewing st)
  | SetLoadingFiles b =>
      mkDashState (d_files st) (d_uploading st) b (d_toast st) (d_userProfile st)
        (d_loadingProfile st) (d_previewUrl st) (d_previewName st) (d_previewing st)
  | SetToast t =>
      mkDashState (d_files st) (d_uploading st) (d_loadingFiles st) t (d_userProfile st)
        (d_loadingProfile st) (d_previewUrl st) (d_previewName st) (d_previewing st)
  | SetUserProfile p =>
      mkDashState (d_files st) (d_uploading st) (d_loadingFiles st) (d_toast st) (Some p)
        (d_loadingProfile st) (d_previewUrl st) (d_previewName st) (d_previewing st)
  | SetLoadingProfile b =>
      mkDashState (d_files st) (d_uploading st) (d_loadingFiles st) (d_toast st)
        (d_userProfile st) b (d_previewUrl st) (d_previewName st) (d_previewing st)
  | SetPreviewUrl u =>
      mkDashState (d_files st) (d_uploading st) (d_loadingFiles st) (d_toast st)
        (d_userProfile st) (d_loadingProfile st) u (d_previewName st) (d_previewing st)
  | SetPreviewName n =>
      mkDashState (d_files st) (d_uploading st) (d_loadingFiles st) (d_toast st)
        (d_userProfile st) (d_loadingProfile st) (d_previewUrl st) n (d_previewing st)
  | SetPreviewing b =>
      mkDashState (d_files st) (d_uploading st) (d_loadingFiles st) (d_toast st)
        (d_userProfile st) (d_loadingProfile st) (d_previewUrl st) (d_previewName st) b
  | _ => st
  end.

Definition d_after (st : DashState) (tr : list Event) : DashState :=
  fold_left d_set (map ev_call tr) st.

(** What the dashboard shows in a state. *)
Definition d_screen (st : DashState) : Dashboard.Screen :=
  Dashboard.render (d_loadingProfile st) (d_userProfile st).

Definition is_profile_select (c : call) : bool :=
  match c with ProfilesSelectRoleStatus _ => true | _ => false end.

Definition confirm_answer (ev : Event) : option bool :=
  match ev with
  | Ev c x =>
      match c as c' return answer c' -> option bool with
      | Confirm _ => fun a => Some a
      | _ => fun _ => None
      end x
  end.

(** ** More sample data *)

Module Sample.

(** What the upload of [Toy.note] by [Toy.alice] leaves in the bucket. *)
Definition stored_note : Blob :=
  mkBlob (Toy.some_iv ++ [102; 103] ++ replicate 16 223) "application/octet-stream".

Definition stocked (up : bool) : Toy.World :=
  Toy.mkWorld up [] [("alice/note.txt", stored_note)] Toy.staff.

(** An object that is not a ciphertext of this vault. *)
Definition foreign (up : bool) : Toy.World :=
  Toy.mkWorld up [] [("alice/note.txt", mkBlob [1; 2; 3] "")] Toy.staff.

(** The environment of [Toy] with a CryptoJS that finds no valid padding
    and returns a negative length, as it does under a wrong key. *)
Definition garbling : Env Toy.World :=
  fun c w =>
    match c as c' return answer c' * Toy.World with
    | CryptoJSAESDecrypt _ _ => (Normal (mkWordArray [] (-1)), w)
    | c' => Toy.env c' w
    end.

(** The environment of [Toy] for a file that was moved away after it
    was picked: reading it rejects. *)
Definition NotFoundError : JsError :=
  mkError "NotFoundError" "A requested file or directory could not be found".

Definition unreadable : Env Toy.World :=
  fun c w =>
    match c as c' return answer c' * Toy.World with
    | FileArrayBuffer _ => (Throw NotFoundError, w)
    | c' => Toy.env c' w
    end.


(** A blob that is neither a ciphertext of this vault nor a legacy file. *)
Definition stray : Blob := mkBlob (Toy.some_iv ++ [7; 7; 7]) "".

End Sample.

(** ** The file grid of the dashboard: tabs, icons and buttons *)

Module Files.
Section Grid.

(** [String.prototype.toLowerCase] needs the Unicode case tables and is
    left uninterpreted. *)
Variable toLowerCase : string -> string.

(** [s.split(sep)] for a separator of one character. *)
Fixpoint split (sep : Ascii.ascii) (s : string) : list string :=
  match s with
  | EmptyString => [EmptyString]
  | String a rest =>
      if Ascii.eqb a sep then EmptyString :: split sep rest
      else match split sep rest with
           | segment :: segments => String a segment :: segments
           | [] => [String a EmptyString]
           end
  end.

(** The character ['.']. *)
Definition dot : Ascii.ascii := Ascii.ascii_of_N 46.

(** [a.pop()] of an array that is not empty. *)
Definition pop (a : list string) : string := List.last a EmptyString.

(** [x || ''] *)
Definition or_empty (x : string) : string := if (x =? "")%string then "" else x.

(** [file.name.split('.').pop()?.toLowerCase() || ''] *)
Definition ext (file : FileObject) : string :=
  or_empty (toLowerCase (pop (split dot (fo_name file)))).

(** [file.metadata?.originalType || ''] *)
Definition type (file : FileObject) : string :=
  match fo_metadata file with
  | Some m => match originalType m with Some t => or_empty t | None => "" end
  | None => ""
  end.

(** [list.includes(x)] *)
Definition includes (list : list string) (x : string) : bool :=
  existsb (String.eqb x) list.

Definition isImage (file : FileObject) : bool :=
  String.prefix "image/" (type file)
  || includes ["jpg"; "jpeg"; "png"; "gif"; "webp"; "svg"] (ext file).

Definition isVideo (file : FileObject) : bool :=
  String.prefix "video/" (type file)
  || includes ["mp4"; "mov"; "avi"; "mkv"; "webm"] (ext file).

Definition isPdf (file : FileObject) : bool :=
  (type file =? "application/pdf")%string || (ext file =? "pdf")%string.

Definition isDoc (file : FileObject) : bool :=
  includes ["doc"; "docx"; "txt"; "rtf"] (ext file).

Definition isArchive (file : FileObject) : bool :=
  includes ["zip"; "rar"; "7z"; "tar"; "gz"] (ext file).

Inductive Filter := all | image | video | document | archive.

(** The callback of [files.filter] for an active filter. *)
Definition shown (activeFilter : Filter) (file : FileObject) : bool :=
  match activeFilter with
  | image => isImage file
  | video => isVideo file
  | document => isDoc file || isPdf file
  | archive => isArchive file
  | all => true
  end.

Definition filteredFiles (activeFilter : Filter) (files : list FileObject)
  : list FileObject :=
  List.filter (shown activeFilter) files.

Inductive Icon := FileIcon | FileImage | Film | FileTextRed | FileTextIndigo | Archive.

Definition icon (file : FileObject) : Icon :=
  if isImage file then FileImage
  else if isVideo file then Film
  else if isPdf file then FileTextRed
  else if isDoc file then FileTextIndigo
  else if isArchive file then Archive
  else FileIcon.

Definition isPreviewable (file : FileObject) : bool :=
  isImage file || isPdf file || isDoc file || isVideo file.

(** The buttons of a card, with the gesture each one is wired to. *)
Definition cardButtons (file : FileObject) : list Dashboard.Gesture :=
  let stored := match fo_metadata file with Some m => originalType m | None => None end in
  (if isPreviewable file then [Dashboard.ClickView (fo_name file) stored] else [])
  ++ [Dashboard.ClickDownload (fo_name file) stored; Dashboard.ClickDelete (fo_name file)].

(** The grid: placeholders while loading, a notice for an empty tab, the
    cards otherwise. *)
Inductive Grid :=
| Placeholders
| NoFilesInCategory
| Cards (cards : list FileObject).

Definition grid (loadingFiles : bool) (activeFilter : Filter) (files : list FileObject)
  : Grid :=
  if loadingFiles then Placeholders
  else match filteredFiles activeFilter files with
       | [] => NoFilesInCategory
       | cards => Cards cards
       end.

End Grid.
End Files.

(** A string without the character ['.']. *)
Definition dotless (s : string) : Prop :=
  Forall (fun a => a <> Files.dot) (String.list_ascii_of_string s).

(** ** The sign-in form ([AuthForm])

    The form has calls of its own -- its state setters, the three
    authentication requests and the router -- so its handler is a program
    over them, built and run as those of the dashboard are. *)

Module Auth.

(** A password is inspected character by character and measured by
    [length], so it is held as its UTF-16 code units. *)
Definition JsString : Type := list N.

Inductive View := sign_in | sign_up.
Inductive Mode := magic_link | with_password.
Inductive Role := user | admin.

Record Message := mkMessage { msg_type : ToastType; msg_text : string }.

Record State := mkState {
  email : string;
  password : JsString;
  showPassword : bool;
  loading : bool;
  view : View;
  mode : Mode;
  form_message : option Message;
  passwordStrength : nat;
  requestedRole : Role
}.

(** The values [useState] starts from. *)
Definition initial : State :=
  mkState "" [] false false sign_in with_password None 0 user.

(** *** Password strength *)

(** [/[A-Z]/], [/[0-9]/] and [/[^A-Za-z0-9]/] on one code unit. *)
Definition is_upper (c : N) : bool := ((65 <=? c) && (c <=? 90))%N.
Definition is_lower (c : N) : bool := ((97 <=? c) && (c <=? 122))%N.
Definition is_digit (c : N) : bool := ((48 <=? c) && (c <=? 57))%N.
Definition is_special (c : N) : bool := negb (is_upper c || is_lower c || is_digit c).

(** [regex.test(password)] for a class of one character. *)
Definition test (class : N -> bool) (s : JsString) : bool := existsb class s.

Definition strength (pw : JsString) : nat :=
  ((if (8 <=? length pw)%nat then 1 else 0)
   + (if test is_upper pw then 1 else 0)
   + (if test is_digit pw then 1 else 0)
   + (if test is_special pw then 1 else 0))%nat.

(** The effect on [[password, view]]. *)
Definition strengthEffect (st : State) : State :=
  match view st with
  | sign_up =>
      mkState (email st) (password st) (showPassword st) (loading st) (view st) (mode st)
        (form_message st) (strength (password st)) (requestedRole st)
  | sign_in => st
  end.

Definition View_eqb (a b : View) : bool :=
  match a, b with
  | sign_in, sign_in | sign_up, sign_up => true
  | _, _ => false
  end.

Definition JsString_eqb (a b : JsString) : bool :=
  (length a =? length b)%nat && forallb (fun p => N.eqb (fst p) (snd p)) (combine a b).

(** After a render the effect runs when one of its dependencies
    changed. *)
Definition commit (before after : State) : State :=
  if JsString_eqb (password before) (password after)
     && View_eqb (view before) (view after)
  then after
  else strengthEffect after.

(** *** What the visitor does *)

Inductive Input :=
| TypeEmail (value : string)
| TypePassword (value : JsString)
| ToggleShowPassword
| ChooseRole (r : Role)
| SwitchMode
| GoToSignUp
| GoToSignIn.

(** The state setters behind each control. *)
Definition update (st : State) (i : Input) : State :=
  match i with
  | TypeEmail v =>
      mkState v (password st) (showPassword st) (loading st) (view st) (mode st)
        (form_message st) (passwordStrength st) (requestedRole st)
  | TypePassword v =>
      mkState (email st) v (showPassword st) (loading st) (view st) (mode st)
        (form_message st) (passwordStrength st) (requestedRole st)
  | ToggleShowPassword =>
      mkState (email st) (password st) (negb (showPassword st)) (loading st) (view st)
        (mode st) (form_message st) (passwordStrength st) (requestedRole st)
  | ChooseRole r =>
      mkState (email st) (password st) (showPassword st) (loading st) (view st) (mode st)
        (form_message st) (passwordStrength st) r
  | SwitchMode =>
      mkState (email st) (password st) (showPassword st) (loading st) (view st)
        (match mode st with with_password => magic_link | magic_link => with_password end)
        (form_message st) (passwordStrength st) (requestedRole st)
  | GoToSignUp =>
      mkState (email st) (password st) (showPassword st) (loading st) sign_up (mode st)
        None (passwordStrength st) (requestedRole st)
  | GoToSignIn =>
      mkState (email st) (password st) (showPassword st) (loading st) sign_in (mode st)
        None (passwordStrength st) (requestedRole st)
  end.

(** The controls a state renders. *)
Definition offered (st : State) (i : Input) : bool :=
  match i with
  | TypeEmail _ => true
  | TypePassword _ | ToggleShowPassword =>
      match mode st, view st with
      | with_password, _ | _, sign_up => true
      | _, _ => false
      end
  | ChooseRole _ =>
      match mode st, view st with
      | _, sign_up => true
      | _, _ => false
      end
  | SwitchMode | GoToSignUp => View_eqb (view st) sign_in
  | GoToSignIn => View_eqb (view st) sign_up
  end.

Definition step (st : State) (i : Input) : State := commit st (update st i).

(** *** Calls and programs *)

Inductive call : Type :=
| SetLoading (b : bool)
| SetMessage (m : option Message)
| SetView (v : View)
| SignUp (mail : string) (pw : JsString) (data_role : Role) (data_status : string)
| SignInWithPassword (mail : string) (pw : JsString)
| SignInWithOtp (mail : string) (emailRedirectTo : string)
| RouterPush (href : string).

Definition answer (c : call) : Type :=
  match c with
  | SignUp _ _ _ _ | SignInWithPassword _ _ | SignInWithOtp _ _ =>
      completion (Response unit)
  | _ => unit
  end.

Inductive Prog (R : Type) : Type :=
| Ret (r : R)
| Do (c : call) (k : answer c -> Prog R).
Arguments Ret {R} r.
Arguments Do {R} c k.

Fixpoint bind {A B} (p : Prog A) (f : A -> Prog B) : Prog B :=
  match p with
  | Ret a => f a
  | Do c k => Do c (fun x => bind (k x) f)
  end.

Definition Async (A : Type) : Type := Prog (completion A).

Definition bindA {A B} (p : Async A) (f : A -> Async B) : Async B :=
  bind p (fun c => match c with Normal a => f a | Throw e => Ret (Throw e) end).

Definition try_catch {A} (body : Async A) (handler : JsError -> Async A) : Async A :=
  bind body (fun c => match c with Normal a => Ret (Normal a) | Throw e => handler e end).

Definition try_finally {A} (body : Async A) (fin : Async unit) : Async A :=
  bind body (fun c =>
  bind fin (fun d => match d with Normal _ => Ret c | Throw e => Ret (Throw e) end)).

Definition perform (c : call) : Async (answer c) := Do c (fun x => Ret (Normal x)).
Definition await (c : call) : Prog (answer c) := Do c (fun x => Ret x).

(** [const { error } = await request; if (error) throw error;] *)
Definition checked (request : Async (Response unit)) : Async unit :=
  bindA request (fun r => match r with Data _ => Ret (Normal tt) | Error e => Ret (Throw e) end).

Record Event := Ev { ev_call : call; ev_answer : answer ev_call }.

Definition Env (S : Type) : Type := forall c : call, S -> answer c * S.

Fixpoint run {S R} (env : Env S) (p : Prog R) (s : S) : list Event * R :=
  match p with
  | Ret r => ([], r)
  | Do c k =>
      let '(x, s') := env c s in
      let '(tr, r) := run env (k x) s' in
      (Ev c x :: tr, r)
  end.

Definition trace_of {S R} (env : Env S) (p : Prog R) (s : S) : list Event :=
  fst (run env p s).
Definition result_of {S R} (env : Env S) (p : Prog R) (s : S) : R :=
  snd (run env p s).

(** *** [handleSubmit] *)

Section Form.

(** [window.location.origin] *)
Variable origin : string.

Definition handleSubmit (st : State) : Async unit :=
  bindA (perform (SetLoading true)) (fun _ =>
  bindA (perform (SetMessage None)) (fun _ =>
  if View_eqb (view st) sign_up && (passwordStrength st <? 3)%nat
  then
    bindA (perform (SetMessage
             (Some (mkMessage error "Password is too weak. Make it stronger.")))) (fun _ =>
    perform (SetLoading false))
  else
    try_finally
      (try_catch
         (match view st with
          | sign_up =>
              bindA (checked
                       (await (SignUp (email st) (password st) (requestedRole st) "pending")))
                (fun _ =>
              bindA (perform (SetMessage
                       (Some (mkMessage success
                                "Account created! Waiting for Admin approval.")))) (fun _ =>
              perform (SetView sign_in)))
          | sign_in =>
              match mode st with
              | with_password =>
                  bindA (checked
                           (await (SignInWithPassword (email st) (password st)))) (fun _ =>
                  perform (RouterPush "/dashboard"))
              | magic_link =>
                  bindA (checked
                           (await (SignInWithOtp (email st) (origin +:+ "/auth/callback"))))
                    (fun _ =>
                  perform (SetMessage
                    (Some (mkMessage success "Magic link sent! Check your email."))))
              end
          end)
         (fun err => perform (SetMessage (Some (mkMessage error (message err))))))
      (perform (SetLoading false)))).

End Form.

(** *** The state after a run *)

(** What a call writes to the state. *)
Definition set (st : State) (c : call) : State :=
  match c with
  | SetLoading b =>
      mkState (email st) (password st) (showPassword st) b (view st) (mode st)
        (form_message st) (passwordStrength st) (requestedRole st)
  | SetMessage m =>
      mkState (email st) (password st) (showPassword st) (loading st) (view st) (mode st)
        m (passwordStrength st) (requestedRole st)
  | SetView v =>
      mkState (email st) (password st) (showPassword st) (loading st) v (mode st)
        (form_message st) (passwordStrength st) (requestedRole st)
  | _ => st
  end.

(** The state once a run is over and the form has rendered again. *)
Definition after (st : State) (tr : list Event) : State :=
  commit st (fold_left set (map ev_call tr) st).

(** The states the form can be in between two events.  A control is used
    only where it is rendered.  A submission writes to the state when it
    starts and again when its request is answered, and the visitor may
    use the form in between: each write of a submission started earlier
    is a step of its own.  The effect, and the render it asks for, are
    over before the next event. *)
Inductive reachable (origin : string) : State -> Prop :=
| reachable_initial : reachable origin initial
| reachable_input st i :
    reachable origin st -> offered st i = true -> reachable origin (step st i)
| reachable_write {S} (env : Env S) (s : S) submitted st ev :
    reachable origin submitted ->
    reachable origin st ->
    In ev (trace_of env (handleSubmit origin submitted) s) ->
    reachable origin (commit st (set st (ev_call ev))).

(** The strength the form holds is the one of the password it holds,
    wherever the form looks at it. *)
Definition in_step (st : State) : Prop :=
  view st = sign_up -> passwordStrength st = strength (password st).

(** The request a submission is about. *)
Definition request_of (origin : string) (st : State) : call :=
  match view st, mode st with
  | sign_up, _ => SignUp (email st) (password st) (requestedRole st) "pending"
  | sign_in, with_password => SignInWithPassword (email st) (password st)
  | sign_in, magic_link => SignInWithOtp (email st) (origin +:+ "/auth/callback")
  end.

(** *** Observations *)

Definition sign_up_request (ev : Event) : option (string * JsString * Role * string) :=
  match ev_call ev with
  | SignUp mail pw r status => Some (mail, pw, r, status)
  | _ => None
  end.

Definition is_request (c : call) : bool :=
  match c with
  | SignUp _ _ _ _ | SignInWithPassword _ _ | SignInWithOtp _ _ => true
  | _ => false
  end.

Definition requests (tr : list Event) : list call :=
  List.filter is_request (map ev_call tr).

Definition request_failure (ev : Event) : option JsError :=
  match ev with
  | Ev c x =>
      match c as c' return answer c' -> option JsError with
      | SignUp _ _ _ _ | SignInWithPassword _ _ | SignInWithOtp _ _ =>
          fun a => match a with
                   | Throw e | Normal (Error e) => Some e
                   | Normal (Data _) => None
                   end
      | _ => fun _ => None
      end x
  end.

Definition pushed (ev : Event) : option string :=
  match ev_call ev with
  | RouterPush href => Some href
  | _ => None
  end.

(** An environment of the form: every request succeeds, or every
    request is refused with one message. *)
Definition accepting : Env unit :=
  fun c s =>
    match c as c' return answer c' * unit with
    | SignUp _ _ _ _ => (Normal (Data tt), s)
    | SignInWithPassword _ _ => (Normal (Data tt), s)
    | SignInWithOtp _ _ => (Normal (Data tt), s)
    | _ => (tt, s)
    end.

Definition refusing : Env unit :=
  fun c s =>
    match c as c' return answer c' * unit with
    | SignUp _ _ _ _ => (Normal (Error (mkError "AuthApiError" "User already registered")), s)
    | SignInWithPassword _ _ =>
        (Normal (Error (mkError "AuthApiError" "Invalid login credentials")), s)
    | SignInWithOtp _ _ => (Throw (mkError "TypeError" "Failed to fetch"), s)
    | _ => (tt, s)
    end.

(** "Passw0rd" and "password" as code units. *)
Definition Passw0rd : JsString := [80; 97; 115; 115; 119; 48; 114; 100]%N.
Definition lowercase_only : JsString := [112; 97; 115; 115; 119; 111; 114; 100]%N.

(** A visitor who opened the sign-up view and filled in the form. *)
Definition applicant : State :=
  step (step (step initial GoToSignUp) (TypeEmail "new@vault.test")) (TypePassword Passw0rd).

End Auth.

(** * Properties *)

(** ** Serialization of a word array *)

Lemma ToInt32_congr x : exists c, ToInt32 x = x mod 2 ^ 32 + c * 2 ^ 32.
Proof.
  exists (x / 2 ^ 32 - (x + 2 ^ 31) / 2 ^ 32). unfold ToInt32.
  change (2 ^ 32) with 4294967296. change (2 ^ 31) with 2147483648.
  Z.div_mod_to_equations. lia.
Qed.

Lemma js_and_255 a : js_and a 255 = a mod 256.
Proof.
  unfold js_and. change (ToInt32 255) with 255. change 255 with (Z.ones 8).
  rewrite Z.land_ones by lia. unfold ToInt32.
  change (2 ^ 8) with 256. change (2 ^ 32) with 4294967296.
  change (2 ^ 31) with 2147483648.
  Z.div_mod_to_equations. lia.
Qed.

Lemma js_sar_div w k :
  0 <= k <= 24 -> js_sar w k = (w mod 2 ^ 32) / 2 ^ k + (ToInt32 w / 2 ^ 32) * 2 ^ (32 - k).
Proof.
  intros Hk. unfold js_sar.
  assert (Z.land k 31 = k) as ->.
  { change 31 with (Z.ones 5). rewrite Z.land_ones by lia. apply Z.mod_small.
    change (2 ^ 5) with 32. lia. }
  rewrite Z.shiftr_div_pow2 by lia.
  destruct (ToInt32_congr w) as [c Hc].
  assert (ToInt32 w / 2 ^ 32 = c) as ->.
  { rewrite Hc, Z.div_add by lia. rewrite Z.div_small; [lia|]. apply Z.mod_pos_bound. lia. }
  rewrite Hc. replace (2 ^ 32) with (2 ^ (32 - k) * 2 ^ k) at 2
    by (rewrite <- Z.pow_add_r by lia; f_equal; lia).
  rewrite Z.mul_assoc, Z.div_add by (apply Z.pow_nonzero; lia). reflexivity.
Qed.

Lemma byte_of_word w k :
  0 <= k <= 24 -> js_and (js_sar w k) 255 = ((w mod 2 ^ 32) / 2 ^ k) mod 256.
Proof.
  intros Hk. rewrite js_and_255, js_sar_div by lia.
  replace (2 ^ (32 - k)) with (2 ^ (24 - k) * 256)
    by (change 256 with (2 ^ 8); rewrite <- Z.pow_add_r by lia; f_equal; lia).
  rewrite Z.mul_assoc, Z_mod_plus_full. reflexivity.
Qed.

Lemma word_bytes w :
  [js_and (js_sar w 24) 255; js_and (js_sar w 16) 255;
   js_and (js_sar w 8) 255; js_and w 255] = be32 w.
Proof.
  rewrite !byte_of_word by lia. rewrite js_and_255. unfold be32. cbv zeta.
  assert (((w mod 2 ^ 32) / 2 ^ 24) mod 256 = (w mod 2 ^ 32) / 2 ^ 24) as ->.
  { change (2 ^ 32) with 4294967296. change (2 ^ 24) with 16777216.
    Z.div_mod_to_equations. lia. }
  assert (w mod 256 = (w mod 2 ^ 32) mod 256) as ->.
  { change (2 ^ 32) with 4294967296. Z.div_mod_to_equations. lia. }
  reflexivity.
Qed.

Lemma be32_bytes w : Forall is_byte (be32 w).
Proof.
  assert (0 <= w mod 2 ^ 32 < 2 ^ 32) by (apply Z.mod_pos_bound; lia).
  unfold be32, is_byte. cbv zeta. change (2 ^ 32) with 4294967296 in *.
  change (2 ^ 24) with 16777216. change (2 ^ 16) with 65536. change (2 ^ 8) with 256.
  repeat constructor; Z.div_mod_to_equations; lia.
Qed.

Lemma be32_length w : length (be32 w) = 4%nat.
Proof. reflexivity. Qed.

Lemma be_serialize_length ws : length (be_serialize ws) = (4 * length ws)%nat.
Proof.
  unfold be_serialize. induction ws as [|w ws IH]; [reflexivity|].
  cbn [map concat]. rewrite length_app, IH, be32_length. cbn [length]. lia.
Qed.

Lemma be_serialize_bytes ws : Forall is_byte (be_serialize ws).
Proof.
  unfold be_serialize. induction ws as [|w ws IH]; [constructor|].
  cbn [map concat]. apply Forall_app. split; [apply be32_bytes | exact IH].
Qed.

Lemma store_next_filled n pre b :
  is_byte b ->
  store_next (Z.of_nat n) (filled n pre) b = filled n (pre ++ [b]).
Proof.
  intros Hb. unfold store_next, filled. rewrite length_app. cbn [length].
  destruct (Z.ltb_spec (Z.of_nat (min (length pre) n)) (Z.of_nat n)) as [Hlt|Hge].
  - assert (length pre < n)%nat as Hpre by lia.
    rewrite Nat.min_l by lia. rewrite Nat.min_l by lia.
    rewrite take_ge by lia. rewrite (take_ge (pre ++ [b])) by (rewrite length_app; cbn; lia).
    destruct (n - length pre)%nat as [|m] eqn:Hm; [lia|].
    replace (n - (length pre + 1))%nat with m by lia.
    cbn [replicate]. rewrite insert_app_r_alt by lia. rewrite Nat.sub_diag.
    cbn [insert list_insert]. unfold ToUint8. rewrite Z.mod_small by exact Hb.
    rewrite <- app_assoc. f_equal. lia.
  - assert (n <= length pre)%nat as Hpre by lia.
    rewrite Nat.min_r by lia. rewrite Nat.min_r by lia.
    rewrite take_app_le by lia.
    replace (n - length pre)%nat with 0%nat by lia.
    replace (n - (length pre + 1))%nat with 0%nat by lia. reflexivity.
Qed.

Lemma store_fold_filled n bs :
  Forall is_byte bs ->
  forall pre, fold_left (store_next (Z.of_nat n)) bs (filled n pre) = filled n (pre ++ bs).
Proof.
  induction 1 as [|b bs Hb _ IH]; intros pre.
  - rewrite app_nil_r. reflexivity.
  - cbn [fold_left]. rewrite store_next_filled by exact Hb.
    rewrite IH, <- app_assoc. reflexivity.
Qed.

Lemma word_step_fold len st w :
  word_step len st w = fold_left (store_next len) (be32 w) st.
Proof. rewrite <- word_bytes. reflexivity. Qed.

Lemma words_fold len ws :
  forall st, fold_left (word_step len) ws st
             = fold_left (store_next len) (be_serialize ws) st.
Proof.
  unfold be_serialize. induction ws as [|w ws IH]; intros st; [reflexivity|].
  cbn [fold_left map concat]. rewrite fold_left_app, IH, word_step_fold. reflexivity.
Qed.

(** The array the loop leaves: the serialized words cut at [sigBytes],
    and zeros where the words run out. *)
Lemma convert_result wordArray :
  0 <= sigBytes wordArray <= MAX_SAFE_INTEGER ->
  convertWordArrayToUint8Array wordArray
  = Normal (take (Z.to_nat (sigBytes wordArray)) (be_serialize (words wordArray))
            ++ replicate (Z.to_nat (sigBytes wordArray)
                          - length (be_serialize (words wordArray))) 0).
Proof.
  intros Hsig. unfold convertWordArrayToUint8Array. cbv zeta.
  destruct (Z.ltb_spec (sigBytes wordArray) 0) as [?|_]; [lia|].
  destruct (Z.ltb_spec MAX_SAFE_INTEGER (sigBytes wordArray)) as [?|_]; [lia|].
  cbn [orb]. rewrite words_fold.
  rewrite <- (Z2Nat.id (sigBytes wordArray)) at 1 by lia.
  assert ((replicate (Z.to_nat (sigBytes wordArray)) 0, 0%nat)
          = filled (Z.to_nat (sigBytes wordArray)) []) as ->.
  { unfold filled. rewrite take_nil. cbn [length app]. rewrite Nat.sub_0_r. reflexivity. }
  rewrite store_fold_filled by apply be_serialize_bytes. reflexivity.
Qed.

(** C10: for a word array with [0 <= sigBytes <= 4 * length words], the
    conversion returns an array of exactly [sigBytes] bytes whose i-th
    byte is the i-th byte of the concatenated big-endian encodings of the
    32-bit words.  The words are a JavaScript array, which keeps
    [sigBytes] below the length at which the allocation throws. *)
Theorem C10_convert_is_big_endian (wordArray : WordArray) :
  js_array (words wordArray) ->
  0 <= sigBytes wordArray <= 4 * Z.of_nat (length (words wordArray)) ->
  exists u8,
    convertWordArrayToUint8Array wordArray = Normal u8
    /\ Z.of_nat (length u8) = sigBytes wordArray
    /\ forall i : nat, Z.of_nat i < sigBytes wordArray ->
         u8 !! i = be_serialize (words wordArray) !! i.
Proof.
  intros Harray [Hlo Hhi].
  assert (sigBytes wordArray <= MAX_SAFE_INTEGER) as Hmax
    by (unfold js_array in Harray; unfold MAX_SAFE_INTEGER; lia).
  rewrite convert_result by (split; assumption).
  pose proof (be_serialize_length (words wordArray)) as Hlen.
  replace (Z.to_nat (sigBytes wordArray) - length (be_serialize (words wordArray)))%nat
    with 0%nat by lia.
  cbn [replicate]. rewrite app_nil_r. eexists. split; [reflexivity|]. split.
  - rewrite length_take. lia.
  - intros i Hi. apply lookup_take_lt. lia.
Qed.

Lemma C10_witness :
  exists u8,
    convertWordArrayToUint8Array (mkWordArray [0x01020304; -2; 0x7fffffff] 6) = Normal u8
    /\ Z.of_nat (length u8) = 6
    /\ forall i : nat, Z.of_nat i < 6 ->
         u8 !! i = be_serialize [0x01020304; -2; 0x7fffffff] !! i.
Proof.
  apply (C10_convert_is_big_endian (mkWordArray [0x01020304; -2; 0x7fffffff] 6)).
  - unfold js_array. cbn. lia.
  - cbn. lia.
Defined.

Example convert_example :
  convertWordArrayToUint8Array (mkWordArray [0x01020304; -2; 0x7fffffff] 6)
  = Normal [1; 2; 3; 4; 255; 255].
Proof. reflexivity. Qed.

(** Past the last word the array keeps its initial zeros. *)
Example convert_short_words :
  convertWordArrayToUint8Array (mkWordArray [0x0a0b0c0d] 6)
  = Normal [10; 11; 12; 13; 0; 0].
Proof. reflexivity. Qed.

Example convert_negative_length :
  convertWordArrayToUint8Array (mkWordArray [0x0a0b0c0d] (-1))
  = Throw (mkError "RangeError" "Invalid typed array length: -1").
Proof. reflexivity. Qed.

Example convert_unsafe_length :
  convertWordArrayToUint8Array (mkWordArray [0x0a0b0c0d] (2 ^ 53))
  = Throw (mkError "RangeError" "Invalid typed array length: 9007199254740992").
Proof. reflexivity. Qed.

(** ** Runs of programs *)

Section Runs.

Context {S : Type} (env : Env S).

Lemma trace_of_Ret {R} (r : R) s : trace_of env (Ret r) s = [].
Proof. reflexivity. Qed.

Lemma result_of_Ret {R} (r : R) s : result_of env (Ret r) s = r.
Proof. reflexivity. Qed.

Lemma trace_of_Do {R} c (k : answer c -> Prog R) s :
  trace_of env (Do c k) s
  = Ev c (fst (env c s)) :: trace_of env (k (fst (env c s))) (snd (env c s)).
Proof.
  unfold trace_of. cbn [run]. destruct (env c s) as [x s']. cbn [fst snd].
  destruct (run env (k x) s'). reflexivity.
Qed.

Lemma result_of_Do {R} c (k : answer c -> Prog R) s :
  result_of env (Do c k) s = result_of env (k (fst (env c s))) (snd (env c s)).
Proof.
  unfold result_of. cbn [run]. destruct (env c s) as [x s']. cbn [fst snd].
  destruct (run env (k x) s'). reflexivity.
Qed.

Lemma post_Ret {R} (r : R) s (Q : list Event -> R -> Prop) :
  Q [] r -> post env (Ret r) s Q.
Proof. intros H. exact H. Qed.

Lemma post_Do {R} c (k : answer c -> Prog R) s (Q : list Event -> R -> Prop) :
  (forall x s', post env (k x) s' (fun tr r => Q (Ev c x :: tr) r)) ->
  post env (Do c k) s Q.
Proof.
  intros H. unfold post. rewrite trace_of_Do, result_of_Do. apply H.
Qed.

End Runs.

(** Unfold the control operators of a handler down to its calls. *)
Ltac control :=
  first
    [ progress unfold bindA, try_catch, try_finally, perform, await, ret, throw, unwrap
    | progress cbn [bind] ].

(** Split an answer into the shapes it can take. *)
Ltac split_answer x :=
  cbn [answer] in x;
  lazymatch type of x with
  | completion (Response _) => destruct x as [[?|?]|?]
  | completion _ => destruct x as [?|?]
  | unit => destruct x
  | bool => destruct x
  | _ => idtac
  end.

(** Run up to the next call and split on the answer of the environment. *)
Ltac answer_call :=
  match goal with
  | |- context [fst (?env ?c ?s)] =>
      let x := fresh "x" in
      let s' := fresh "s" in
      let E := fresh "E" in
      destruct (env c s) as [x s'] eqn:E; cbn [fst snd] in *; split_answer x
  end.

Ltac run_step :=
  first
    [ rewrite trace_of_Ret
    | rewrite result_of_Ret
    | rewrite trace_of_Do
    | rewrite result_of_Do
    | progress control ].

(** Run a handler to its end along every course of answers. *)
Ltac run_all :=
  repeat first
    [ run_step
    | answer_call
    | match goal with
      | |- context [convertWordArrayToUint8Array ?w] =>
          destruct (convertWordArrayToUint8Array w)
      | |- context [bind (if ?b then _ else _) _] => destruct b eqn:?
      | |- context [bind (match ?o with Some _ => _ | None => _ end) _] =>
          destruct o eqn:?
      | |- context [trace_of _ (if ?b then _ else _) _] => destruct b eqn:?
      | |- context [result_of _ (if ?b then _ else _) _] => destruct b eqn:?
      | |- context [trace_of _ (match ?o with Some _ => _ | None => _ end) _] =>
          destruct o eqn:?
      | |- context [result_of _ (match ?o with Some _ => _ | None => _ end) _] =>
          destruct o eqn:?
      end ].

(** State a goal about one run as a property of its trace and result,
    and establish it along every course of answers. *)
Ltac as_post :=
  match goal with
  | |- context [trace_of ?env ?p ?s] =>
      pattern (trace_of env p s), (result_of env p s);
      match goal with |- ?Q _ _ => change (post env p s Q) end
  end.

Ltac post_all :=
  repeat first
    [ control
    | simple apply post_Ret; cbv beta
    | simple apply post_Do; let x := fresh "x" in (intros x ?; split_answer x)
    | match goal with
      | |- context [convertWordArrayToUint8Array ?w] =>
          destruct (convertWordArrayToUint8Array w)
      | |- context [bind (if ?b then _ else _) _] => destruct b eqn:?
      | |- context [bind (match ?o with Some _ => _ | None => _ end) _] =>
          destruct o eqn:?
      | |- post _ (if ?b then _ else _) _ _ => destruct b eqn:?
      | |- post _ (match ?o with Some _ => _ | None => _ end) _ _ => destruct o eqn:?
      end ].

(** Evaluate the observations of an explicit trace, leaving the
    arguments of its calls as they are. *)
Ltac observe :=
  cbv [external_calls List.filter map ev_call ev_answer existsb orb andb negb implb
       is_external_call is_storage_call is_table_call is_crypto_call
       is_object_call is_encryption_call is_admin_request is_sign_up
       is_file_read is_blob_read is_legacy_call
       failed failed_call completion_failed response_failed
       toast_of is_toast is_error_toast is_alert is_console_error
       is_toast_timer toasts_transient Z.eqb Pos.eqb].


(** Unfold the handlers of the dashboard and of the admin panel. *)
Ltac handlers :=
  unfold Dashboard.handler, Dashboard.fetchProfile, Dashboard.handleFileUpload,
    Dashboard.handlePreview, Dashboard.handleDownload, Dashboard.handleDelete,
    Dashboard.filesEffect, Dashboard.fetchFiles, Dashboard.logAction,
    Dashboard.encryptFile, Dashboard.decryptFile, Dashboard.getCryptoKey,
    Dashboard.showToast, Dashboard.user_id_text,
    Admin.handler, Admin.onClick, Admin.handleAddUser, Admin.updateUserStatus,
    Admin.deleteUser, Admin.fetchUsers;
  cbv zeta.

(** ** The header test of [decryptFile] *)

Lemma encode_fromCharCode bytes :
  Forall is_byte bytes -> TextEncoder_encode (fromCharCode bytes) = bytes.
Proof.
  intros Hb. unfold TextEncoder_encode, fromCharCode.
  rewrite String.list_ascii_of_string_of_list_ascii, map_map.
  induction Hb as [|b bs Hb _ IH]; [reflexivity|].
  cbn [map]. rewrite IH. f_equal.
  rewrite Ascii.N_ascii_embedding by (unfold is_byte in Hb; lia).
  apply Z2N.id. unfold is_byte in Hb. lia.
Qed.

Lemma header_test bytes :
  Forall is_byte (take 10 bytes) ->
  (fromCharCode (take 10 bytes) =? "U2FsdGVkX1")%string = true
  <-> take 10 bytes = LEGACY_SIGNATURE.
Proof.
  intros Hb. split.
  - intros H. apply String.eqb_eq in H.
    rewrite <- (encode_fromCharCode (take 10 bytes)) by exact Hb.
    rewrite H. reflexivity.
  - intros ->. reflexivity.
Qed.

Lemma header_test_signature bytes :
  take 10 bytes = LEGACY_SIGNATURE ->
  (fromCharCode (take 10 bytes) =? "U2FsdGVkX1")%string = true.
Proof. intros ->. reflexivity. Qed.

(** ** The executable environment meets the assumptions *)

Lemma Toy_unseal_seal key iv pt : Toy.unseal key iv (Toy.seal key iv pt) = Normal pt.
Proof.
  unfold Toy.unseal, Toy.seal. cbv zeta.
  assert (length (Toy.tag key iv pt) = 16%nat) as Htag
    by (unfold Toy.tag; apply length_replicate).
  rewrite length_app, length_map, Htag.
  replace (length pt + 16 - 16)%nat with (length (map (Z.lxor (Toy.keystream key iv)) pt))
    by (rewrite length_map; lia).
  rewrite take_app_length, drop_app_length, map_map.
  assert (map (fun x => Z.lxor (Toy.keystream key iv) (Z.lxor (Toy.keystream key iv) x)) pt = pt)
    as ->.
  { rewrite <- (map_id pt) at 2. apply map_ext. intros x.
    rewrite <- Z.lxor_assoc, Z.lxor_nilpotent, Z.lxor_0_l. reflexivity. }
  destruct (decide _) as [_|Hno]; [reflexivity|].
  exfalso. apply Hno. split; [lia | reflexivity].
Qed.

Lemma Toy_webcrypto_works : WebCryptoWorks Toy.env.
Proof.
  constructor.
  - intros data s. exists (Toy.digest data). unfold Toy.env.
    destruct (Toy.online s); split; reflexivity.
  - intros data s s'. unfold Toy.env.
    destruct (Toy.online s), (Toy.online s'); reflexivity.
  - intros raw s _. exists (mkCryptoKey "AES-GCM" raw). unfold Toy.env.
    destruct (Toy.online s); reflexivity.
  - intros raw s s'. unfold Toy.env.
    destruct (Toy.online s), (Toy.online s'); reflexivity.
  - intros raw s0 key iv data s _ _. exists (Toy.seal key iv data). unfold Toy.env.
    destruct (Toy.online s); reflexivity.
  - intros key iv data ct s s' H.
    assert (ct = Toy.seal key iv data) as ->.
    { unfold Toy.env in H. destruct (Toy.online s); cbn in H; congruence. }
    unfold Toy.env. destruct (Toy.online s'); cbn [Toy.backend Toy.unreachable fst];
      apply Toy_unseal_seal.
Qed.

Lemma Toy_random_fills : random_fills Toy.env.
Proof.
  intros n s.
  assert (fst (Toy.env (GetRandomValues n) s)
          = map ToUint8 (take n (Toy.entropy s ++ replicate n 0))) as ->
    by (unfold Toy.env; destruct (Toy.online s); reflexivity).
  split.
  - rewrite length_map, length_take, length_app, length_replicate. lia.
  - apply Forall_map, Forall_true. intros x. unfold is_byte, ToUint8.
    apply Z.mod_pos_bound. lia.
Qed.

Lemma Toy_legacy_deterministic : legacy_deterministic Toy.env.
Proof.
  split; intros ? ? ?; try intros ?; unfold Toy.env;
    destruct (Toy.online _), (Toy.online _); reflexivity.
Qed.

(** ** Compatibility with files of the previous revision *)

(** C4: on a blob that starts with the legacy signature, the current
    [decryptFile] reads the blob, logs its warning and then makes the
    calls of the CryptoJS-only [decryptFile] of the previous revision,
    with the same blob and key, and completes as it does; when reading
    the blob as text and the CryptoJS decryption are functions of their
    arguments, the two revisions return the same result from any two
    states. *)
Theorem C4_legacy_files_decrypt_as_before
  {S : Type} (env : Env S) (user : option User) (blob : Blob) (s : S) :
  has_legacy_signature blob ->
  (let read := BlobArrayBuffer (blob_bytes blob) in
   let warning :=
     ConsoleWarn "Attempting Legacy Decryption..."
       (match fst (env read s) with
        | Normal _ => mkError "Error" "Legacy Format Detected"
        | Throw e => e
        end) in
   let s1 := snd (env warning (snd (env read s))) in
   map ev_call (trace_of env (Dashboard.decryptFile user blob) s)
   = read :: warning :: map ev_call (trace_of env (Previous.decryptFile user blob) s1)
   /\ result_of env (Dashboard.decryptFile user blob) s
      = result_of env (Previous.decryptFile user blob) s1)
  /\ (legacy_deterministic env ->
      forall s',
        result_of env (Dashboard.decryptFile user blob) s
        = result_of env (Previous.decryptFile user blob) s').
Proof.
  intros Hsig.
  unfold Dashboard.decryptFile, Previous.decryptFile. cbv zeta.
  rewrite (header_test_signature _ Hsig).
  change (Previous.ENCRYPTION_KEY user) with (Dashboard.ENCRYPTION_KEY user).
  split.
  - repeat run_step.
    destruct (env (BlobArrayBuffer (blob_bytes blob)) s) as [[[]|e0] s0];
      cbn [fst snd]; repeat run_step; split; reflexivity.
  - intros [Htext Hcjs] s'. repeat run_step.
    destruct (env (BlobArrayBuffer (blob_bytes blob)) s) as [[[]|e0] s0];
      cbn [fst snd]; repeat run_step;
      rewrite (Htext (blob_bytes blob) _ s');
      (destruct (env (BlobText (blob_bytes blob)) s') as [[text|e] s1] eqn:E1;
       cbn [fst snd]; repeat run_step; [|reflexivity]);
      rewrite (Hcjs text _ _ s1);
      (destruct (env (CryptoJSAESDecrypt text (Dashboard.ENCRYPTION_KEY user)) s1)
         as [[wa|e] s2] eqn:E2; cbn [fst snd]; repeat run_step; [|reflexivity]);
      destruct (convertWordArrayToUint8Array wa); repeat run_step; reflexivity.
Qed.

Lemma C4_witness :
  has_legacy_signature Toy.legacy_blob
  /\ legacy_deterministic Toy.env
  /\ result_of Toy.env (Dashboard.decryptFile (Some Toy.alice) Toy.legacy_blob)
       (Toy.fresh true [])
     = result_of Toy.env (Previous.decryptFile (Some Toy.alice) Toy.legacy_blob)
         (Toy.fresh true Toy.some_iv).
Proof.
  assert (has_legacy_signature Toy.legacy_blob) as Hsig by reflexivity.
  split; [exact Hsig|]. split; [exact Toy_legacy_deterministic|].
  exact (proj2 (C4_legacy_files_decrypt_as_before Toy.env (Some Toy.alice)
                  Toy.legacy_blob (Toy.fresh true []) Hsig)
           Toy_legacy_deterministic (Toy.fresh true Toy.some_iv)).
Defined.

(** The blob a legacy file decrypts to in the executable environment. *)
Example legacy_file_decrypts :
  result_of Toy.env (Dashboard.decryptFile (Some Toy.alice) Toy.legacy_blob)
    (Toy.fresh true [])
  = Normal (mkBlob [193; 192; 195] "").
Proof. vm_compute. reflexivity. Qed.

(** ** The two branches of [decryptFile] *)

(** As [post_all], keeping what the conversion of a word array returned. *)
Ltac post_all_eqn :=
  repeat first
    [ control
    | simple apply post_Ret; cbv beta
    | simple apply post_Do; let x := fresh "x" in (intros x ?; split_answer x)
    | match goal with
      | |- context [convertWordArrayToUint8Array ?w] =>
          destruct (convertWordArrayToUint8Array w) eqn:?
      | |- context [bind (if ?b then _ else _) _] => destruct b eqn:?
      | |- context [bind (match ?o with Some _ => _ | None => _ end) _] =>
          destruct o eqn:?
      | |- post _ (if ?b then _ else _) _ _ => destruct b eqn:?
      | |- post _ (match ?o with Some _ => _ | None => _ end) _ _ => destruct o eqn:?
      end ].

(** C3, amended: [decryptFile] reads the blob and tests the signature
    before anything else.  The legacy path -- the blob read as text and
    handed to CryptoJS under the per-user key, the word array converted to
    the result -- is taken exactly when the read rejects, the blob starts
    with the signature, or a Web Crypto call of the AES-GCM attempt
    throws.  On a blob with the signature no Web Crypto call is made; on a
    blob without it that could be read the attempt is made, and when it
    fails the fallback follows without a second look at the signature.
    When the legacy path is not taken the result is the plaintext AES-GCM
    answered for bytes 0..11 as vector and bytes 12.. as data. *)
Theorem C3_signature_first_then_fallback
  {S : Type} (env : Env S) (user : option User) (blob : Blob) (s : S) :
  Forall is_byte (blob_bytes blob) ->
  (legacy_path_taken (trace_of env (Dashboard.decryptFile user blob) s)
   <-> failed_call is_blob_read (trace_of env (Dashboard.decryptFile user blob) s) = true
       \/ has_legacy_signature blob
       \/ gcm_decryption_threw (trace_of env (Dashboard.decryptFile user blob) s))
  /\ (has_legacy_signature blob ->
      existsb (fun ev => is_gcm_call (ev_call ev))
        (trace_of env (Dashboard.decryptFile user blob) s) = false)
  /\ (~ has_legacy_signature blob ->
      existsb (fun ev => is_gcm_call (ev_call ev))
        (trace_of env (Dashboard.decryptFile user blob) s)
      = negb (failed_call is_blob_read (trace_of env (Dashboard.decryptFile user blob) s)))
  /\ (legacy_path_taken (trace_of env (Dashboard.decryptFile user blob) s) ->
      exists text,
        omap text_call (trace_of env (Dashboard.decryptFile user blob) s)
        = [(blob_bytes blob, text)]
        /\ match text with
           | Throw e =>
               omap cryptojs_call (trace_of env (Dashboard.decryptFile user blob) s) = []
               /\ result_of env (Dashboard.decryptFile user blob) s = Throw e
           | Normal text =>
               exists decrypted,
                 omap cryptojs_call (trace_of env (Dashboard.decryptFile user blob) s)
                 = [(text, Dashboard.ENCRYPTION_KEY user, decrypted)]
                 /\ result_of env (Dashboard.decryptFile user blob) s
                    = match decrypted with
                      | Normal wordArray => blob_of_words wordArray
                      | Throw e => Throw e
                      end
           end)
  /\ (~ legacy_path_taken (trace_of env (Dashboard.decryptFile user blob) s) ->
      exists key plain,
        decrypt_calls (trace_of env (Dashboard.decryptFile user blob) s)
        = [(key, take 12 (blob_bytes blob), drop 12 (blob_bytes blob), Normal plain)]
        /\ result_of env (Dashboard.decryptFile user blob) s = Normal (mkBlob plain "")).
Proof.
  intros Hbytes. pose proof (header_test _ (Forall_take _ 10%nat _ Hbytes)) as Hheader.
  unfold has_legacy_signature, legacy_path_taken, gcm_decryption_threw, blob_of_words.
  as_post. unfold Dashboard.decryptFile, Dashboard.getCryptoKey. cbv zeta.
  destruct (fromCharCode (take 10 (blob_bytes blob)) =? "U2FsdGVkX1")%string eqn:Hhead.
  - assert (take 10 (blob_bytes blob) = LEGACY_SIGNATURE) as Hsig
      by (apply Hheader; reflexivity).
    clear Hheader. remember (take 10 (blob_bytes blob) = LEGACY_SIGNATURE) as signed.
    post_all_eqn; cbn;
      (split; [tauto|]); (split; [reflexivity|]); (split; [intros H; contradiction|]);
      (split; [|intros H; exfalso; apply H; reflexivity]);
      intros _; eexists; (split; [reflexivity|]); cbn;
      try (eexists; split; [reflexivity|]);
      try (split; reflexivity);
      cbv beta iota;
      try match goal with H : convertWordArrayToUint8Array _ = _ |- _ => rewrite H end;
      reflexivity.
  - assert (take 10 (blob_bytes blob) <> LEGACY_SIGNATURE) as Hno
      by (intros H; apply Hheader in H; discriminate).
    clear Hheader. remember (take 10 (blob_bytes blob) = LEGACY_SIGNATURE) as signed.
    post_all_eqn; cbn;
      (split; [split; [tauto | intros [?|[?|?]]; first [contradiction | congruence]]|]);
      (split; [intros H; contradiction|]); (split; [reflexivity|]);
      (split;
       [ intros H; try discriminate H;
         eexists; (split; [reflexivity|]); cbn;
         try (eexists; split; [reflexivity|]);
         try (split; reflexivity);
         cbv beta iota;
      try match goal with H : convertWordArrayToUint8Array _ = _ |- _ => rewrite H end;
         reflexivity
       | intros H; try (exfalso; apply H; reflexivity);
         eexists _, _; split; reflexivity ]).
Qed.
Lemma C3_witness :
  Forall is_byte (blob_bytes Toy.legacy_blob)
  /\ Forall is_byte (blob_bytes Sample.stored_note)
  /\ (exists text,
        omap text_call
          (trace_of Toy.env (Dashboard.decryptFile (Some Toy.alice) Toy.legacy_blob)
             (Toy.fresh true []))
        = [(blob_bytes Toy.legacy_blob, text)]
        /\ match text with
           | Throw e =>
               omap cryptojs_call
                 (trace_of Toy.env (Dashboard.decryptFile (Some Toy.alice) Toy.legacy_blob)
                    (Toy.fresh true [])) = []
               /\ result_of Toy.env (Dashboard.decryptFile (Some Toy.alice) Toy.legacy_blob)
                    (Toy.fresh true []) = Throw e
           | Normal text =>
               exists decrypted,
                 omap cryptojs_call
                   (trace_of Toy.env (Dashboard.decryptFile (Some Toy.alice) Toy.legacy_blob)
                      (Toy.fresh true []))
                 = [(text, Dashboard.ENCRYPTION_KEY (Some Toy.alice), decrypted)]
                 /\ result_of Toy.env (Dashboard.decryptFile (Some Toy.alice) Toy.legacy_blob)
                      (Toy.fresh true [])
                    = match decrypted with
                      | Normal wordArray => blob_of_words wordArray
                      | Throw e => Throw e
                      end
           end)
  /\ (exists key plain,
        decrypt_calls
          (trace_of Toy.env (Dashboard.decryptFile (Some Toy.alice) Sample.stored_note)
             (Toy.fresh true []))
        = [(key, take 12 (blob_bytes Sample.stored_note),
            drop 12 (blob_bytes Sample.stored_note), Normal plain)]
        /\ result_of Toy.env (Dashboard.decryptFile (Some Toy.alice) Sample.stored_note)
             (Toy.fresh true [])
           = Normal (mkBlob plain "")).
Proof.
  assert (Forall is_byte (blob_bytes Toy.legacy_blob)) as Hlegacy
    by (cbn; unfold is_byte; repeat constructor; lia).
  assert (Forall is_byte (blob_bytes Sample.stored_note)) as Hstored
    by (cbn; unfold is_byte; repeat constructor; lia).
  split; [exact Hlegacy|]. split; [exact Hstored|]. split.
  - destruct (C3_signature_first_then_fallback Toy.env (Some Toy.alice) Toy.legacy_blob
                (Toy.fresh true []) Hlegacy) as (Hiff & _ & _ & Hfallback & _).
    apply Hfallback, Hiff. right. left. reflexivity.
  - destruct (C3_signature_first_then_fallback Toy.env (Some Toy.alice) Sample.stored_note
                (Toy.fresh true []) Hstored) as (_ & _ & _ & _ & Hgcm).
    apply Hgcm. vm_compute. discriminate.
Defined.

(** C3 as stated fails.  The claim has [decryptFile] try AES-GCM first
    and look for the signature once that failed.  On a file of the
    previous revision the signature is found before any attempt: the blob
    is read, the warning is logged and CryptoJS is called, with no Web
    Crypto call at all.  And on a blob without the signature whose AES-GCM
    decryption fails, CryptoJS is called all the same: the fallback does
    not look for the signature. *)
Lemma C3_counterexample :
  (has_legacy_signature Toy.legacy_blob
   /\ map ev_call
        (trace_of Toy.env (Dashboard.decryptFile (Some Toy.alice) Toy.legacy_blob)
           (Toy.fresh true []))
      = [BlobArrayBuffer (blob_bytes Toy.legacy_blob);
         ConsoleWarn "Attempting Legacy Decryption..."
           (mkError "Error" "Legacy Format Detected");
         BlobText (blob_bytes Toy.legacy_blob);
         CryptoJSAESDecrypt "U2FsdGVkX1?>=" "alice"])
  /\ (~ has_legacy_signature Sample.stray
      /\ gcm_decryption_threw
           (trace_of Toy.env (Dashboard.decryptFile (Some Toy.alice) Sample.stray)
              (Toy.fresh true []))
      /\ legacy_path_taken
           (trace_of Toy.env (Dashboard.decryptFile (Some Toy.alice) Sample.stray)
              (Toy.fresh true []))).
Proof.
  split; [split; [reflexivity | vm_compute; reflexivity]|].
  split; [vm_compute; discriminate|]. split; vm_compute; reflexivity.
Qed.

(** ** Round trip of the client-side encryption *)

Lemma encrypted_header {S : Type} (env : Env S) s (ct : list Z) :
  random_fills env ->
  let iv := fst (env (GetRandomValues 12) s) in
  length iv = 12%nat
  /\ take 12 (iv ++ ct) = iv
  /\ drop 12 (iv ++ ct) = ct
  /\ take 10 (iv ++ ct) = take 10 iv
  /\ Forall is_byte (take 10 (iv ++ ct)).
Proof.
  intros R iv. destruct (R 12%nat s) as [Hlen Hbytes]. fold iv in Hlen, Hbytes.
  split; [exact Hlen|]. split; [|split; [|split]].
  - rewrite <- Hlen. apply take_app_length.
  - rewrite <- Hlen. apply drop_app_length.
  - apply take_app_le. lia.
  - rewrite take_app_le by lia. apply Forall_take. exact Hbytes.
Qed.

(** C1, amended: when the file can be read and Web Crypto serves the
    calls made, [encryptFile] returns a blob; and unless that blob -- that
    is, the initialization vector drawn for it -- starts with the legacy
    signature, [decryptFile] under the same user, once it has read the
    blob, returns a blob whose bytes are those of the file. *)
Theorem C1_roundtrip_unless_iv_is_signature
  {S : Type} (env : Env S) (user : option User) (file : File) (s s' : S) :
  WebCryptoWorks env ->
  random_fills env ->
  failed_call is_file_read (trace_of env (Dashboard.encryptFile user file) s) = false ->
  exists blob,
    result_of env (Dashboard.encryptFile user file) s = Normal blob
    /\ (~ has_legacy_signature blob ->
        failed_call is_blob_read (trace_of env (Dashboard.decryptFile user blob) s') = false ->
        exists plain,
          result_of env (Dashboard.decryptFile user blob) s' = Normal plain
          /\ blob_bytes plain = file_bytes file).
Proof.
  intros W R.
  set (secret := TextEncoder_encode (Dashboard.ENCRYPTION_KEY user)).
  destruct (digest_works env W secret s) as [h [Hh Hhlen]].
  set (s1 := snd (env (SubtleDigest "SHA-256" secret) s)).
  destruct (importKey_works env W h s1 Hhlen) as [key Hkey].
  set (s2 := snd (env (SubtleImportKey "raw" h "AES-GCM") s1)).
  set (iv := fst (env (GetRandomValues 12) s2)).
  set (s3 := snd (env (GetRandomValues 12) s2)).
  set (s4 := snd (env (FileArrayBuffer file) s3)).
  assert (length iv = 12%nat) as Hivlen by apply (R 12%nat s2).
  destruct (encrypt_works env W h s1 key iv (file_bytes file) s4 Hkey Hivlen) as [ct Hct].
  destruct (encrypted_header env s2 ct R) as (Hlen & Htake & Hdrop & Hten & Hbytes).
  fold iv in Hlen, Htake, Hdrop, Hten, Hbytes.
  unfold Dashboard.encryptFile, Dashboard.getCryptoKey. cbv zeta. fold secret.
  repeat run_step. rewrite Hh. repeat run_step. fold s1. rewrite Hkey.
  repeat run_step. fold s2 iv s3. fold s4.
  destruct (fst (env (FileArrayBuffer file) s3)) as [[]|e]; repeat run_step;
    [|cbn; discriminate].
  rewrite Hct. repeat run_step. intros _.
  exists (mkBlob (iv ++ ct) "application/octet-stream"). split; [reflexivity|].
  intros Hno. unfold has_legacy_signature in Hno. cbn [blob_bytes] in Hno.
  unfold Dashboard.decryptFile, Dashboard.getCryptoKey. cbv zeta. fold secret.
  cbn [blob_bytes].
  destruct (fromCharCode (take 10 (iv ++ ct)) =? "U2FsdGVkX1")%string eqn:Hhead.
  { exfalso. apply Hno. apply header_test; assumption. }
  rewrite Htake, Hdrop.
  repeat run_step.
  destruct (fst (env (BlobArrayBuffer (iv ++ ct)) s')) as [[]|e]; repeat run_step;
    [|cbn; discriminate].
  intros _. exists (mkBlob (file_bytes file) ""). split; [|reflexivity].
  rewrite (digest_deterministic env W secret _ s), Hh.
  repeat run_step.
  rewrite (importKey_deterministic env W h _ s1), Hkey.
  repeat run_step.
  rewrite (decrypt_inverts_encrypt env W key iv (file_bytes file) ct s4 _ Hct).
  repeat run_step. reflexivity.
Qed.

Lemma C1_witness :
  exists blob plain,
    result_of Toy.env (Dashboard.encryptFile (Some Toy.alice) Toy.note)
      (Toy.fresh true Toy.some_iv) = Normal blob
    /\ ~ has_legacy_signature blob
    /\ result_of Toy.env (Dashboard.decryptFile (Some Toy.alice) blob)
         (Toy.fresh true []) = Normal plain
    /\ blob_bytes plain = [104; 105].
Proof.
  assert (failed_call is_file_read
            (trace_of Toy.env (Dashboard.encryptFile (Some Toy.alice) Toy.note)
               (Toy.fresh true Toy.some_iv)) = false) as Hread
    by (vm_compute; reflexivity).
  destruct (C1_roundtrip_unless_iv_is_signature Toy.env (Some Toy.alice) Toy.note
              (Toy.fresh true Toy.some_iv) (Toy.fresh true [])
              Toy_webcrypto_works Toy_random_fills Hread) as [blob [Henc Hdec]].
  assert (blob = Sample.stored_note) as Hblob
    by (vm_compute in Henc; injection Henc as <-; reflexivity).
  assert (~ has_legacy_signature blob) as Hno
    by (rewrite Hblob; vm_compute; discriminate).
  assert (failed_call is_blob_read
            (trace_of Toy.env (Dashboard.decryptFile (Some Toy.alice) blob)
               (Toy.fresh true [])) = false) as Hblobread
    by (rewrite Hblob; vm_compute; reflexivity).
  destruct (Hdec Hno Hblobread) as [plain [Hplain Hbytes]].
  exists blob, plain. repeat split; assumption.
Defined.

(** C1 as stated fails: with working Web Crypto and readable file and
    blob, when the twelve random bytes of the initialization vector start
    with the legacy signature, [decryptFile] takes the CryptoJS path on
    the blob [encryptFile] made and returns other bytes than the
    file's. *)
Lemma C1_counterexample :
  WebCryptoWorks Toy.env /\ random_fills Toy.env
  /\ exists blob plain,
       result_of Toy.env (Dashboard.encryptFile (Some Toy.alice) Toy.note)
         (Toy.fresh true Toy.unlucky_iv) = Normal blob
       /\ result_of Toy.env (Dashboard.decryptFile (Some Toy.alice) blob)
            (Toy.fresh true []) = Normal plain
       /\ blob_bytes plain <> file_bytes Toy.note.
Proof.
  split; [exact Toy_webcrypto_works|]. split; [exact Toy_random_fills|].
  eexists. eexists. split; [vm_compute; reflexivity|].
  split; [vm_compute; reflexivity|]. vm_compute. discriminate.
Qed.

(** ** Layout of the encrypted blob *)

(** C2: when none of its calls fails -- the read of the file, the key
    derivation, the encryption -- [encryptFile] returns the 12-byte
    initialization vector handed to the one AES-GCM encryption of the
    file's bytes, followed by the ciphertext that call answered; when one
    of them fails it returns no blob.  On a blob without the legacy
    signature [decryptFile] hands bytes 0..11 as vector and bytes 12.. as
    ciphertext to AES-GCM, unless the read of the blob or the key
    derivation throws first. *)
Theorem C2_blob_layout
  {S : Type} (env : Env S) (user : option User) (file : File) (blob : Blob) (s : S) :
  random_fills env ->
  Forall is_byte (blob_bytes blob) ->
  ~ has_legacy_signature blob ->
  (if failed_call is_file_read (trace_of env (Dashboard.encryptFile user file) s)
      || failed_call is_encryption_call (trace_of env (Dashboard.encryptFile user file) s)
   then completion_failed (result_of env (Dashboard.encryptFile user file) s) = true
   else
     exists key iv ct,
       encrypt_calls (trace_of env (Dashboard.encryptFile user file) s)
       = [(key, iv, file_bytes file, Normal ct)]
       /\ length iv = 12%nat
       /\ result_of env (Dashboard.encryptFile user file) s
          = Normal (mkBlob (iv ++ ct) "application/octet-stream")
       /\ take 12 (iv ++ ct) = iv
       /\ drop 12 (iv ++ ct) = ct)
  /\ ((exists key answer,
          decrypt_calls (trace_of env (Dashboard.decryptFile user blob) s)
          = [(key, take 12 (blob_bytes blob), drop 12 (blob_bytes blob), answer)])
      \/ (decrypt_calls (trace_of env (Dashboard.decryptFile user blob) s) = []
          /\ (failed_call is_blob_read (trace_of env (Dashboard.decryptFile user blob) s)
              = true
              \/ gcm_decryption_threw (trace_of env (Dashboard.decryptFile user blob) s)))).
Proof.
  intros R Hbytes Hno. split.
  - unfold Dashboard.encryptFile, Dashboard.getCryptoKey. cbv zeta.
    run_all; cbn; try reflexivity.
    eexists _, _, _. split; [reflexivity|].
    match goal with
    | E : env (GetRandomValues 12) ?s2 = (?iv, _) |- _ /\ _ /\ take 12 (?iv ++ ?ct) = _ /\ _ =>
        destruct (encrypted_header env s2 ct R) as (Hlen & Htake & Hdrop & _);
        rewrite E in Hlen, Htake, Hdrop; cbn [fst] in Hlen, Htake, Hdrop
    end.
    auto.
  - unfold Dashboard.decryptFile, Dashboard.getCryptoKey, gcm_decryption_threw. cbv zeta.
    destruct (fromCharCode (take 10 (blob_bytes blob)) =? "U2FsdGVkX1")%string eqn:Hhead.
    + exfalso. apply Hno. apply header_test; [apply Forall_take; exact Hbytes | exact Hhead].
    + run_all; cbn; eauto.
Qed.

Lemma C2_witness :
  random_fills Toy.env
  /\ Forall is_byte (blob_bytes Sample.stray)
  /\ ~ has_legacy_signature Sample.stray
  /\ (exists key iv ct,
        encrypt_calls (trace_of Toy.env (Dashboard.encryptFile (Some Toy.alice) Toy.note)
                         (Toy.fresh true Toy.some_iv))
        = [(key, iv, [104; 105], Normal ct)]
        /\ length iv = 12%nat
        /\ result_of Toy.env (Dashboard.encryptFile (Some Toy.alice) Toy.note)
             (Toy.fresh true Toy.some_iv)
           = Normal (mkBlob (iv ++ ct) "application/octet-stream")
        /\ take 12 (iv ++ ct) = iv
        /\ drop 12 (iv ++ ct) = ct)
  /\ ((exists key answer,
          decrypt_calls (trace_of Toy.env (Dashboard.decryptFile (Some Toy.alice) Sample.stray)
                           (Toy.fresh true Toy.some_iv))
          = [(key, Toy.some_iv, [7; 7; 7], answer)])
      \/ (decrypt_calls (trace_of Toy.env (Dashboard.decryptFile (Some Toy.alice) Sample.stray)
                           (Toy.fresh true Toy.some_iv)) = []
          /\ (failed_call is_blob_read
                (trace_of Toy.env (Dashboard.decryptFile (Some Toy.alice) Sample.stray)
                   (Toy.fresh true Toy.some_iv)) = true
              \/ gcm_decryption_threw
                   (trace_of Toy.env (Dashboard.decryptFile (Some Toy.alice) Sample.stray)
                      (Toy.fresh true Toy.some_iv))))).
Proof.
  assert (Forall is_byte (blob_bytes Sample.stray)) as Hbytes
    by (cbn; unfold is_byte; repeat constructor; lia).
  assert (~ has_legacy_signature Sample.stray) as Hno
    by (unfold has_legacy_signature; vm_compute; discriminate).
  split; [exact Toy_random_fills|]. split; [exact Hbytes|]. split; [exact Hno|].
  destruct (C2_blob_layout Toy.env (Some Toy.alice) Toy.note Sample.stray
              (Toy.fresh true Toy.some_iv) Toy_random_fills Hbytes Hno) as [Henc Hdec].
  split; [|exact Hdec].
  assert (failed_call is_file_read
            (trace_of Toy.env (Dashboard.encryptFile (Some Toy.alice) Toy.note)
               (Toy.fresh true Toy.some_iv))
          || failed_call is_encryption_call
               (trace_of Toy.env (Dashboard.encryptFile (Some Toy.alice) Toy.note)
                  (Toy.fresh true Toy.some_iv)) = false) as Hok
    by (vm_compute; reflexivity).
  rewrite Hok in Henc. exact Henc.
Defined.

(** A file that cannot be read gives no blob. *)
Example unreadable_file_is_not_encrypted :
  result_of Sample.unreadable (Dashboard.encryptFile (Some Toy.alice) Toy.note)
    (Toy.fresh true Toy.some_iv)
  = Throw Sample.NotFoundError.
Proof. vm_compute. reflexivity. Qed.

(** ** The upload size limit *)

Example MAX_FILE_SIZE_bytes : Dashboard.MAX_FILE_SIZE = 50 * 1024 * 1024.
Proof. reflexivity. Qed.

(** C9: a file larger than 50 * 1024 * 1024 bytes makes [handleFileUpload]
    return with no call to Web Crypto, to the bucket or to the log table,
    so nothing is encrypted, stored or logged; with a signed-in user its
    only calls are the error toast and the toast's timer.  A file at or
    below the limit passes the check, and the handler goes on to derive
    the encryption key. *)
Theorem C9_upload_size_limit
  {S : Type} (env : Env S) (user : option User) (formatSize : Z -> string)
  (file : File) (s : S) :
  (file_size file > Dashboard.MAX_FILE_SIZE ->
     external_calls (trace_of env (Dashboard.handleFileUpload user formatSize file) s) = []
     /\ result_of env (Dashboard.handleFileUpload user formatSize file) s = Normal tt
     /\ (user <> None ->
         map ev_call (trace_of env (Dashboard.handleFileUpload user formatSize file) s)
         = [SetToast (Some (mkToast error
              ("File too large (" +:+ formatSize (file_size file)
               +:+ "). Limit is 50MB for browser encryption.")));
            SetTimeout ClearToast 3000]))
  /\ (file_size file <= Dashboard.MAX_FILE_SIZE ->
      user <> None ->
      take 5 (map ev_call
                (trace_of env (Dashboard.handleFileUpload user formatSize file) s))
      = [SetUploading true;
         SetToast (Some (mkToast success "Processing encryption..."));
         SetTimeout ClearToast 3000;
         Sleep 500;
         SubtleDigest "SHA-256" (TextEncoder_encode (Dashboard.ENCRYPTION_KEY user))]).
Proof.
  unfold Dashboard.handleFileUpload, Dashboard.showToast, Dashboard.encryptFile,
    Dashboard.getCryptoKey, external_calls.
  cbv zeta. destruct user as [u|].
  - split; intros Hsize.
    + assert ((file_size file >? Dashboard.MAX_FILE_SIZE) = true) as -> by lia.
      run_all. repeat split; reflexivity.
    + intros _. assert ((file_size file >? Dashboard.MAX_FILE_SIZE) = false) as -> by lia.
      repeat run_step. reflexivity.
  - split; intros Hsize.
    + repeat split; [reflexivity..|]. intros H. contradiction.
    + intros H. contradiction.
Qed.

Lemma huge_exceeds_limit : file_size Toy.huge > Dashboard.MAX_FILE_SIZE.
Proof.
  unfold file_size, Toy.huge. cbn [file_bytes].
  rewrite length_replicate, Z2Nat.id by discriminate. reflexivity.
Qed.

Lemma C9_witness :
  (external_calls
     (trace_of Toy.env
        (Dashboard.handleFileUpload (Some Toy.alice) Toy.formatSize Toy.huge)
        (Toy.fresh true [])) = []
   /\ result_of Toy.env
        (Dashboard.handleFileUpload (Some Toy.alice) Toy.formatSize Toy.huge)
        (Toy.fresh true []) = Normal tt
   /\ map ev_call
        (trace_of Toy.env
           (Dashboard.handleFileUpload (Some Toy.alice) Toy.formatSize Toy.huge)
           (Toy.fresh true []))
      = [SetToast (Some (mkToast error
           ("File too large (" +:+ Toy.formatSize (file_size Toy.huge)
            +:+ "). Limit is 50MB for browser encryption.")));
         SetTimeout ClearToast 3000])
  /\ take 5 (map ev_call
               (trace_of Toy.env
                  (Dashboard.handleFileUpload (Some Toy.alice) Toy.formatSize Toy.note)
                  (Toy.fresh true Toy.some_iv)))
     = [SetUploading true;
        SetToast (Some (mkToast success "Processing encryption..."));
        SetTimeout ClearToast 3000;
        Sleep 500;
        SubtleDigest "SHA-256"
          (TextEncoder_encode (Dashboard.ENCRYPTION_KEY (Some Toy.alice)))].
Proof.
  assert (Some Toy.alice <> None) as Hin by discriminate.
  split.
  - destruct (proj1 (C9_upload_size_limit Toy.env (Some Toy.alice) Toy.formatSize
                       Toy.huge (Toy.fresh true [])) huge_exceeds_limit)
      as (Hnone & Hres & Htoast).
    split; [exact Hnone|]. split; [exact Hres|]. exact (Htoast Hin).
  - apply (proj2 (C9_upload_size_limit Toy.env (Some Toy.alice) Toy.formatSize Toy.note
                    (Toy.fresh true Toy.some_iv))); [discriminate | exact Hin].
Defined.

(** An upload in the executable environment stores the encrypted blob
    under the user's folder and lists it afterwards. *)
Example upload_then_list :
  external_calls
    (trace_of Toy.env
       (Dashboard.handleFileUpload (Some Toy.alice) Toy.formatSize Toy.note)
       (Toy.fresh true Toy.some_iv))
  = [SubtleDigest "SHA-256" [97; 108; 105; 99; 101];
     SubtleImportKey "raw" (replicate 32 254) "AES-GCM";
     GetRandomValues 12;
     SubtleEncrypt (mkCryptoKey "AES-GCM" (replicate 32 254)) Toy.some_iv [104; 105];
     StorageUpload "emergency-tools" "alice/note.txt"
       (mkBlob (Toy.some_iv ++ [102; 103] ++ replicate 16 223) "application/octet-stream")
       (mkUploadOptions true "application/encrypted" "text/plain" "true");
     AccessLogsInsert (mkLogEntry "alice" "UPLOAD" "note.txt" "Size: 2 bytes");
     StorageList "emergency-tools" "alice/"].
Proof. vm_compute. reflexivity. Qed.

(** ** Storage paths *)

(** C7: with a signed-in user, every request an operation of the
    dashboard sends to the storage service names the bucket of the vault
    and a path under the user's id: the id and a slash for a listing, the
    id, a slash and the file name for upload, download, preview and
    delete. *)
Theorem C7_storage_paths_are_scoped
  {S : Type} (env : Env S) (u : User) (formatSize : Z -> string)
  (previewBlobType : string -> string -> string) (op : Dashboard.Operation) (s : S) :
  Forall (scoped (user_id u) (Dashboard.operation_file_name op))
    (map ev_call
       (trace_of env (Dashboard.handler (Some u) formatSize previewBlobType op) s)).
Proof.
  destruct op; as_post; handlers; post_all;
    cbn [map ev_call Dashboard.operation_file_name]; repeat constructor.
Qed.

(** ** Access to the vault *)



(** ** Status transitions in the admin panel *)

Lemma status_buttons_only_for_pending (row : Profile) (b : Admin.RowButton) :
  b ∈ Admin.rowButtons row -> b <> Admin.DeleteUser -> p_status row = "pending".
Proof.
  unfold Admin.rowButtons. intros Hin Hb.
  destruct (p_role row =? "admin")%string; [inversion Hin|].
  destruct (p_status row =? "pending")%string eqn:Hst.
  - apply String.eqb_eq. exact Hst.
  - cbn in Hin. apply list_elem_of_singleton in Hin. contradiction.
Qed.

Lemma same_id_same_row (users : list Profile) (row u : Profile) (i : nat) :
  NoDup (map id users) -> row ∈ users -> users !! i = Some u -> id u = id row -> u = row.
Proof.
  intros Hnd Hrow Hu Hid. apply list_elem_of_lookup in Hrow as [j Hj].
  assert (i = j) as ->.
  { eapply NoDup_lookup; [exact Hnd| |].
    - rewrite list_lookup_fmap, Hu. reflexivity.
    - rewrite list_lookup_fmap, Hj. cbn. rewrite Hid. reflexivity. }
  congruence.
Qed.

(** C6: a click on a button of a table row sends a status update only
    from the approve and reject buttons, which are rendered only for a row
    whose status is pending; the update names that row's id and the
    status approved or rejected; and, ids being unique, the list handed to
    [setUsers] afterwards keeps every profile that was not pending as it
    was and gives the clicked row the new status. *)
Theorem C6_status_updates_leave_pending_only
  {S : Type} (env : Env S) (users : list Profile) (actionLoading : option string)
  (row : Profile) (b : Admin.RowButton) (s : S) :
  Admin.clickable users actionLoading row b ->
  (forall uid st,
      (uid, st) ∈ status_updates (trace_of env (Admin.onClick users row b) s) ->
      uid = id row /\ p_status row = "pending" /\ (st = "approved" \/ st = "rejected"))
  /\ (NoDup (map id users) -> b <> Admin.DeleteUser ->
      forall us, us ∈ omap users_set (trace_of env (Admin.onClick users row b) s) ->
        (forall i u, users !! i = Some u -> p_status u <> "pending" -> us !! i = Some u)
        /\ (forall i, users !! i = Some row ->
              exists st, us !! i = Some (Admin.with_status row st)
                         /\ (st = "approved" \/ st = "rejected"))).
Proof.
  intros (Hrow & Hb & _).
  pose proof (status_buttons_only_for_pending row b Hb) as Hpending.
  assert (forall st (i : nat) (u : Profile),
             NoDup (map id users) -> p_status row = "pending" ->
             users !! i = Some u -> p_status u <> "pending" ->
             map (fun u => if (id u =? id row)%string then Admin.with_status u st else u)
               users !! i = Some u) as Hkeep.
  { intros st i u Hnd Hp Hu Hnp. rewrite list_lookup_fmap, Hu. cbn.
    destruct (id u =? id row)%string eqn:Hid; [|reflexivity].
    apply String.eqb_eq in Hid.
    rewrite (same_id_same_row users row u i Hnd Hrow Hu Hid) in Hnp. contradiction. }
  assert (forall st (i : nat),
             users !! i = Some row ->
             map (fun u => if (id u =? id row)%string then Admin.with_status u st else u)
               users !! i = Some (Admin.with_status row st)) as Hset.
  { intros st i Hi. rewrite list_lookup_fmap, Hi. cbn. rewrite String.eqb_refl. reflexivity. }
  destruct b; handlers; split.
  - intros uid st. run_all; unfold status_updates; cbn;
      rewrite ?list_elem_of_singleton; intros H; try (inversion H; fail);
      injection H as -> ->; auto.
  - intros Hnd _ us. specialize (Hpending ltac:(discriminate)).
    run_all; cbn;
      rewrite ?list_elem_of_singleton; intros H; try (inversion H; fail); subst us;
      split; [intros i u; apply Hkeep; assumption | intros i Hi; eauto].
  - intros uid st. run_all; unfold status_updates; cbn;
      rewrite ?list_elem_of_singleton; intros H; try (inversion H; fail);
      injection H as -> ->; auto.
  - intros Hnd _ us. specialize (Hpending ltac:(discriminate)).
    run_all; cbn;
      rewrite ?list_elem_of_singleton; intros H; try (inversion H; fail); subst us;
      split; [intros i u; apply Hkeep; assumption | intros i Hi; eauto].
  - intros uid st. run_all; unfold status_updates; cbn;
      intros H; inversion H.
  - intros _ Hne. contradiction.
Qed.

Lemma Toy_staff_ids_unique : NoDup (map id Toy.staff).
Proof.
  cbn. apply NoDup_cons. split; [|apply NoDup_singleton].
  rewrite list_elem_of_singleton. discriminate.
Qed.

Lemma C6_witness :
  Admin.clickable Toy.staff None Toy.bob Admin.Approve
  /\ (forall uid st,
        (uid, st) ∈ status_updates
                      (trace_of Toy.env (Admin.onClick Toy.staff Toy.bob Admin.Approve)
                         (Toy.office true)) ->
        uid = "bob" /\ p_status Toy.bob = "pending"
        /\ (st = "approved" \/ st = "rejected"))
  /\ (forall us,
        us ∈ omap users_set
               (trace_of Toy.env (Admin.onClick Toy.staff Toy.bob Admin.Approve)
                  (Toy.office true)) ->
        us !! 1%nat = Some Toy.carol).
Proof.
  assert (Admin.clickable Toy.staff None Toy.bob Admin.Approve) as Hclick.
  { split; [constructor|]. split; [constructor | reflexivity]. }
  split; [exact Hclick|].
  destruct (C6_status_updates_leave_pending_only Toy.env Toy.staff None Toy.bob
              Admin.Approve (Toy.office true) Hclick) as [Hsent Hlist].
  split; [exact Hsent|]. intros us Hus.
  assert (Admin.Approve <> Admin.DeleteUser) as Hne by discriminate.
  apply (proj1 (Hlist Toy_staff_ids_unique Hne us Hus) 1%nat Toy.carol);
    [reflexivity | discriminate].
Defined.

(** Approving the pending profile in the executable environment. *)
Example approve_bob :
  status_updates (trace_of Toy.env (Admin.onClick Toy.staff Toy.bob Admin.Approve)
                    (Toy.office true)) = [("bob", "approved")]
  /\ omap users_set (trace_of Toy.env (Admin.onClick Toy.staff Toy.bob Admin.Approve)
                       (Toy.office true))
     = [[Admin.with_status Toy.bob "approved"; Toy.carol]]
  /\ Admin.rowButtons Toy.carol = [Admin.DeleteUser].
Proof. vm_compute. auto. Qed.

(** ** Errors of the backend and of the ciphers *)



(** A failed download, by contrast, is shown in an error toast. *)
Example download_failure_is_toasted :
  map ev_call
    (trace_of Toy.env (Dashboard.handleDownload (Some Toy.alice) "note.txt" None)
       (Toy.fresh false []))
  = [StorageDownload "emergency-tools" "alice/note.txt";
     ConsoleError "Download Error" Toy.NetworkError;
     SetToast (Some (mkToast error "Failed to fetch"));
     SetTimeout ClearToast 3000].
Proof. vm_compute. reflexivity. Qed.

(** A file that cannot be read is reported as the failed encryption is:
    no Web Crypto call and no request failed, yet the error toast is
    shown and nothing is uploaded. *)
Example unreadable_upload_is_toasted :
  drop 7 (map ev_call
            (trace_of Sample.unreadable
               (Dashboard.handleFileUpload (Some Toy.alice) Toy.formatSize Toy.note)
               (Toy.fresh true Toy.some_iv)))
  = [FileArrayBuffer Toy.note;
     ConsoleError "Encryption Memory Error" Sample.NotFoundError;
     ConsoleError "Upload failed:"
       (mkError "Error" "Phone ran out of memory during encryption. Try a smaller file.");
     SetToast (Some (mkToast error
       "Phone ran out of memory during encryption. Try a smaller file."));
     SetTimeout ClearToast 3000;
     SetUploading false].
Proof. vm_compute. reflexivity. Qed.

(** * Further properties *)

(** ** Edges of the word-array conversion *)

Lemma filled_bytes n pre : Forall is_byte pre -> Forall is_byte (fst (filled n pre)).
Proof.
  intros H. unfold filled. cbn [fst]. apply Forall_app. split.
  - apply Forall_take. exact H.
  - apply Forall_replicate. unfold is_byte. lia.
Qed.

(** X1: the conversion throws a RangeError exactly when [sigBytes] is
    negative or above [MAX_SAFE_INTEGER]; otherwise it returns [sigBytes]
    bytes, each in 0..255 whatever numbers the words hold, and the
    positions past the last word keep the zero they were created with. *)
Theorem X1_convert_edges (wordArray : WordArray) :
  (sigBytes wordArray < 0 \/ MAX_SAFE_INTEGER < sigBytes wordArray ->
   exists e,
     convertWordArrayToUint8Array wordArray = Throw e /\ err_name e = "RangeError")
  /\ (0 <= sigBytes wordArray <= MAX_SAFE_INTEGER ->
      exists u8,
        convertWordArrayToUint8Array wordArray = Normal u8
        /\ Z.of_nat (length u8) = sigBytes wordArray
        /\ Forall is_byte u8
        /\ forall i : nat,
             4 * Z.of_nat (length (words wordArray)) <= Z.of_nat i < sigBytes wordArray ->
             u8 !! i = Some 0).
Proof.
  split.
  - intros Hout. unfold convertWordArrayToUint8Array. cbv zeta.
    destruct (Z.ltb_spec (sigBytes wordArray) 0);
      destruct (Z.ltb_spec MAX_SAFE_INTEGER (sigBytes wordArray));
      cbn [orb]; try (eexists; split; reflexivity).
    lia.
  - intros Hsig. rewrite convert_result by exact Hsig.
    pose proof (be_serialize_length (words wordArray)) as Hlen.
    pose proof (be_serialize_bytes (words wordArray)) as Hbytes.
    eexists. split; [reflexivity|]. split; [|split].
    + rewrite length_app, length_take, length_replicate. lia.
    + apply (filled_bytes (Z.to_nat (sigBytes wordArray)) _ Hbytes).
    + intros i Hi. rewrite lookup_app_r by (rewrite length_take; lia).
      apply lookup_replicate_2. rewrite length_take. lia.
Qed.

Lemma X1_witness :
  (exists e,
      convertWordArrayToUint8Array (mkWordArray [0x0a0b0c0d] (-3)) = Throw e
      /\ err_name e = "RangeError")
  /\ (exists e,
        convertWordArrayToUint8Array (mkWordArray [0x0a0b0c0d] (2 ^ 53)) = Throw e
        /\ err_name e = "RangeError")
  /\ exists u8,
       convertWordArrayToUint8Array (mkWordArray [0x0a0b0c0d; 2 ^ 40 + 7] 10) = Normal u8
       /\ Z.of_nat (length u8) = 10
       /\ Forall is_byte u8
       /\ forall i : nat, 4 * 2 <= Z.of_nat i < 10 -> u8 !! i = Some 0.
Proof.
  split; [|split].
  - apply (proj1 (X1_convert_edges (mkWordArray [0x0a0b0c0d] (-3)))).
    left. reflexivity.
  - apply (proj1 (X1_convert_edges (mkWordArray [0x0a0b0c0d] (2 ^ 53)))).
    right. reflexivity.
  - apply (proj2 (X1_convert_edges (mkWordArray [0x0a0b0c0d; 2 ^ 40 + 7] 10))).
    split; discriminate.
Defined.

(** X2: a smaller [sigBytes] cuts the result and changes nothing else:
    for [0 <= a <= b], with [b] a length the array can be created with,
    the conversion with [a] is the first [a] bytes of the conversion with
    [b] of the same words. *)
Theorem X2_convert_truncates (ws : list Z) (a b : Z) :
  0 <= a <= b ->
  b <= MAX_SAFE_INTEGER ->
  exists ua ub,
    convertWordArrayToUint8Array (mkWordArray ws a) = Normal ua
    /\ convertWordArrayToUint8Array (mkWordArray ws b) = Normal ub
    /\ ua = take (Z.to_nat a) ub.
Proof.
  intros [Ha Hab] Hb. rewrite !convert_result by (cbn; lia). cbn [words sigBytes].
  eexists _, _. split; [reflexivity|]. split; [reflexivity|].
  set (bs := be_serialize ws).
  rewrite take_app, take_take, length_take, take_replicate.
  f_equal; f_equal; lia.
Qed.

Lemma X2_witness :
  exists ua ub,
    convertWordArrayToUint8Array (mkWordArray [0x01020304; -2] 3) = Normal ua
    /\ convertWordArrayToUint8Array (mkWordArray [0x01020304; -2] 7) = Normal ub
    /\ ua = take (Z.to_nat 3) ub.
Proof. apply (X2_convert_truncates [0x01020304; -2] 3 7); [lia | discriminate]. Defined.

(** ** The two paths of [decryptFile] apart *)

Lemma convert_failed wordArray :
  completion_failed (convertWordArrayToUint8Array wordArray)
  = (sigBytes wordArray <? 0) || (MAX_SAFE_INTEGER <? sigBytes wordArray).
Proof.
  unfold convertWordArrayToUint8Array. cbv zeta.
  destruct ((sigBytes wordArray <? 0) || (MAX_SAFE_INTEGER <? sigBytes wordArray));
    reflexivity.
Qed.

(** X3: the two paths of [decryptFile] do not mix.  When the catch block
    is not entered, the result is the plaintext AES-GCM answered for bytes
    0..11 and 12.. of the blob, and neither [blob.text()] nor CryptoJS is
    called; on a blob with the legacy signature no Web Crypto call is
    made at all. *)
Theorem X3_decrypt_paths_are_disjoint
  {S : Type} (env : Env S) (user : option User) (blob : Blob) (s : S) :
  (existsb is_legacy_warning (trace_of env (Dashboard.decryptFile user blob) s) = false ->
   (exists key plain,
       decrypt_calls (trace_of env (Dashboard.decryptFile user blob) s)
       = [(key, take 12 (blob_bytes blob), drop 12 (blob_bytes blob), Normal plain)]
       /\ result_of env (Dashboard.decryptFile user blob) s = Normal (mkBlob plain ""))
   /\ existsb (fun ev => is_legacy_call (ev_call ev))
        (trace_of env (Dashboard.decryptFile user blob) s) = false)
  /\ (has_legacy_signature blob ->
      existsb (fun ev => is_crypto_call (ev_call ev) && negb (is_legacy_call (ev_call ev)))
        (trace_of env (Dashboard.decryptFile user blob) s) = false).
Proof.
  split.
  - as_post. unfold Dashboard.decryptFile, Dashboard.getCryptoKey. cbv zeta.
    post_all; cbn; intros H; try discriminate H; split; [eexists _, _; split|]; reflexivity.
  - intros Hsig. as_post. unfold Dashboard.decryptFile, Dashboard.getCryptoKey. cbv zeta.
    rewrite (header_test_signature _ Hsig). post_all; reflexivity.
Qed.

Lemma X3_witness :
  (exists key plain,
      decrypt_calls
        (trace_of Toy.env
           (Dashboard.decryptFile (Some Toy.alice)
              (mkBlob (Toy.some_iv ++ [102; 103] ++ replicate 16 223) ""))
           (Toy.fresh true []))
      = [(key, take 12 (Toy.some_iv ++ [102; 103] ++ replicate 16 223),
          drop 12 (Toy.some_iv ++ [102; 103] ++ replicate 16 223), Normal plain)]
      /\ result_of Toy.env
           (Dashboard.decryptFile (Some Toy.alice)
              (mkBlob (Toy.some_iv ++ [102; 103] ++ replicate 16 223) ""))
           (Toy.fresh true [])
         = Normal (mkBlob plain ""))
  /\ existsb (fun ev => is_crypto_call (ev_call ev) && negb (is_legacy_call (ev_call ev)))
       (trace_of Toy.env (Dashboard.decryptFile (Some Toy.alice) Toy.legacy_blob)
          (Toy.fresh true [])) = false.
Proof.
  split.
  - apply (proj1 (X3_decrypt_paths_are_disjoint Toy.env (Some Toy.alice)
                    (mkBlob (Toy.some_iv ++ [102; 103] ++ replicate 16 223) "")
                    (Toy.fresh true []))).
    vm_compute. reflexivity.
  - apply (proj2 (X3_decrypt_paths_are_disjoint Toy.env (Some Toy.alice) Toy.legacy_blob
                    (Toy.fresh true []))).
    reflexivity.
Defined.

(** X4: [decryptFile] rejects exactly when the legacy decoding fails:
    reading the blob as text rejects, CryptoJS throws, or CryptoJS returns
    a [sigBytes] that is negative or above [MAX_SAFE_INTEGER] (then
    [new Uint8Array] throws).  A failure of AES-GCM alone never makes it
    reject. *)
Theorem X4_decrypt_rejects_iff_legacy_decoding_fails
  {S : Type} (env : Env S) (user : option User) (blob : Blob) (s : S) :
  completion_failed (result_of env (Dashboard.decryptFile user blob) s)
  = existsb legacy_decode_failed (trace_of env (Dashboard.decryptFile user blob) s).
Proof.
  as_post. unfold Dashboard.decryptFile, Dashboard.getCryptoKey. cbv zeta.
  post_all_eqn;
    cbv [existsb legacy_decode_failed completion_failed orb];
    repeat match goal with
      | H : convertWordArrayToUint8Array ?w = _ |- _ =>
          apply (f_equal completion_failed) in H; rewrite convert_failed in H;
          cbv [completion_failed orb] in H; rewrite H; clear H
      end;
    reflexivity.
Qed.

(** A wrong key typically leaves CryptoJS with a negative length. *)
Example decrypt_rejects_on_negative_length :
  forall text,
    convertWordArrayToUint8Array (mkWordArray text (-7)) = Throw (RangeError (-7)).
Proof. reflexivity. Qed.

(** ** What an upload sends *)

(** X5: whatever is uploaded is ciphertext.  In a run of
    [handleFileUpload] either nothing is sent to the bucket, or exactly
    one object is: the 12 random bytes followed by what AES-GCM answered
    for the file's bytes under those bytes as vector and under the key
    imported from the SHA-256 digest of the per-user secret; it goes to
    the user's folder under the file's name, marked as encrypted. *)
Theorem X5_upload_body_is_ciphertext
  {S : Type} (env : Env S) (u : User) (formatSize : Z -> string) (file : File) (s : S) :
  omap upload_call (trace_of env (Dashboard.handleFileUpload (Some u) formatSize file) s) = []
  \/ exists h key iv ct,
       omap digest_call (trace_of env (Dashboard.handleFileUpload (Some u) formatSize file) s)
       = [("SHA-256", TextEncoder_encode (Dashboard.ENCRYPTION_KEY (Some u)), Normal h)]
       /\ omap import_call
            (trace_of env (Dashboard.handleFileUpload (Some u) formatSize file) s)
          = [("raw", h, "AES-GCM", Normal key)]
       /\ omap random_call
            (trace_of env (Dashboard.handleFileUpload (Some u) formatSize file) s)
          = [(12%nat, iv)]
       /\ encrypt_calls (trace_of env (Dashboard.handleFileUpload (Some u) formatSize file) s)
          = [(key, iv, file_bytes file, Normal ct)]
       /\ omap upload_call
            (trace_of env (Dashboard.handleFileUpload (Some u) formatSize file) s)
          = [("emergency-tools", user_id u +:+ "/" +:+ file_name file,
              mkBlob (iv ++ ct) "application/octet-stream",
              mkUploadOptions true "application/encrypted" (file_type file) "true")].
Proof.
  as_post. handlers. post_all;
    first [ left; reflexivity
          | right; eexists _, _, _, _; repeat split; reflexivity ].
Qed.

(** ** What a download delivers *)

(** X6: [handleDownload] saves a file exactly when the download request
    succeeded, under the requested name and with the stored MIME type (or
    [application/octet-stream]).  The bytes saved are the plaintext when
    AES-GCM answered one; when no "decrypted" toast is shown, they are the
    downloaded bytes as they came, still encrypted.  After a failed
    request nothing is saved. *)
Theorem X6_download_delivery
  {S : Type} (env : Env S) (user : option User) (fileName : string)
  (origType : option string) (s : S) :
  (forall data,
      omap download_answer (trace_of env (Dashboard.handleDownload user fileName origType) s)
      = [Normal (Data data)] ->
      exists delivered url,
        omap object_url (trace_of env (Dashboard.handleDownload user fileName origType) s)
        = [(mkBlob delivered (default "application/octet-stream" origType), url)]
        /\ omap anchor_call (trace_of env (Dashboard.handleDownload user fileName origType) s)
           = [(url, fileName)]
        /\ (existsb is_decrypted_toast
              (trace_of env (Dashboard.handleDownload user fileName origType) s) = false ->
            delivered = blob_bytes data)
        /\ (forall key iv ct plain,
              decrypt_calls (trace_of env (Dashboard.handleDownload user fileName origType) s)
              = [(key, iv, ct, Normal plain)] ->
              delivered = plain))
  /\ (failed_call is_object_call
        (trace_of env (Dashboard.handleDownload user fileName origType) s) = true ->
      omap object_url (trace_of env (Dashboard.handleDownload user fileName origType) s) = []
      /\ omap anchor_call (trace_of env (Dashboard.handleDownload user fileName origType) s)
         = []).
Proof.
  split.
  - intros data. as_post. handlers.
    post_all; intros H; try discriminate H; injection H as <-;
      eexists _, _; (split; [reflexivity|]); (split; [reflexivity|]);
      (split;
       [ intros Ht; first [reflexivity | discriminate Ht]
       | intros key iv ct plain Hd;
         first [discriminate Hd | injection Hd as _ _ _ <-; reflexivity] ]).
  - as_post. handlers. post_all; intros H; try discriminate H; split; reflexivity.
Qed.

Lemma X6_witness :
  (exists delivered url,
      omap object_url
        (trace_of Toy.env (Dashboard.handleDownload (Some Toy.alice) "note.txt" None)
           (Sample.stocked true))
      = [(mkBlob delivered "application/octet-stream", url)]
      /\ omap anchor_call
           (trace_of Toy.env (Dashboard.handleDownload (Some Toy.alice) "note.txt" None)
              (Sample.stocked true))
         = [(url, "note.txt")]
      /\ delivered = [104; 105])
  /\ (exists delivered url,
         omap object_url
           (trace_of Sample.garbling
              (Dashboard.handleDownload (Some Toy.alice) "note.txt" None)
              (Sample.foreign true))
         = [(mkBlob delivered "application/octet-stream", url)]
         /\ delivered = [1; 2; 3])
  /\ omap anchor_call
       (trace_of Toy.env (Dashboard.handleDownload (Some Toy.alice) "note.txt" None)
          (Sample.stocked false)) = [].
Proof.
  split; [|split].
  - destruct (proj1 (X6_download_delivery Toy.env (Some Toy.alice) "note.txt" None
                       (Sample.stocked true)) Sample.stored_note)
      as (delivered & url & Hurl & Hanchor & _ & Hplain).
    { vm_compute. reflexivity. }
    exists delivered, url. split; [exact Hurl|]. split; [exact Hanchor|].
    eapply Hplain. vm_compute. reflexivity.
  - destruct (proj1 (X6_download_delivery Sample.garbling (Some Toy.alice) "note.txt" None
                       (Sample.foreign true)) (mkBlob [1; 2; 3] ""))
      as (delivered & url & Hurl & _ & Hraw & _).
    { vm_compute. reflexivity. }
    exists delivered, url. split; [exact Hurl|]. apply Hraw. vm_compute. reflexivity.
  - apply (proj2 (X6_download_delivery Toy.env (Some Toy.alice) "note.txt" None
                    (Sample.stocked false))).
    vm_compute. reflexivity.
Defined.

(** ** The access log *)

(** X7: what the dashboard writes to the access log.  An upload, a
    download and a delete are logged once, with the user's id, the file
    name and the action, and only when their storage request succeeded --
    a download also when the decryption failed; a preview, a listing and
    a profile fetch are never logged, and without a user nothing is. *)
Theorem X7_access_log_discipline
  {S : Type} (env : Env S) (user : option User) (formatSize : Z -> string)
  (previewBlobType : string -> string -> string) (op : Dashboard.Operation) (s : S) :
  omap log_entry (trace_of env (Dashboard.handler user formatSize previewBlobType op) s)
  = match user with
    | None => []
    | Some u =>
        match op with
        | Dashboard.LogAction act fileName dets => [mkLogEntry (user_id u) act fileName dets]
        | Dashboard.UploadFile file =>
            if succeeded_call is_object_call
                 (trace_of env (Dashboard.handler user formatSize previewBlobType op) s)
            then [mkLogEntry (user_id u) "UPLOAD" (file_name file)
                    ("Size: " +:+ pretty (file_size file) +:+ " bytes")]
            else []
        | Dashboard.DownloadFile fileName _ =>
            if succeeded_call is_object_call
                 (trace_of env (Dashboard.handler user formatSize previewBlobType op) s)
            then [mkLogEntry (user_id u) "DOWNLOAD" fileName ""]
            else []
        | Dashboard.DeleteFile fileName =>
            if succeeded_call is_object_call
                 (trace_of env (Dashboard.handler user formatSize previewBlobType op) s)
            then [mkLogEntry (user_id u) "DELETE" fileName ""]
            else []
        | _ => []
        end
    end.
Proof.
  destruct user as [u|], op; as_post; handlers; post_all; reflexivity.
Qed.

(** ** Busy flags and what stays on screen *)


(** X9: a preview saves nothing and logs nothing.  When its download
    request fails the modal is closed again, the preview URL is left as it
    was and the toast reads "Failed to load preview"; otherwise the modal
    stays open on the file and shows the one object URL that was
    created. *)
Theorem X9_preview_outcome
  {S : Type} (env : Env S) (user : option User)
  (previewBlobType : string -> string -> string)
  (fileName : string) (origType : option string) (st : DashState) (s : S) :
  omap anchor_call
    (trace_of env (Dashboard.handlePreview user previewBlobType fileName origType) s) = []
  /\ omap log_entry
       (trace_of env (Dashboard.handlePreview user previewBlobType fileName origType) s) = []
  /\ if failed_call is_object_call
          (trace_of env (Dashboard.handlePreview user previewBlobType fileName origType) s)
     then
       d_previewName
         (d_after st
            (trace_of env (Dashboard.handlePreview user previewBlobType fileName origType) s))
       = None
       /\ d_previewUrl
            (d_after st
               (trace_of env
                  (Dashboard.handlePreview user previewBlobType fileName origType) s))
          = d_previewUrl st
       /\ d_toast
            (d_after st
               (trace_of env
                  (Dashboard.handlePreview user previewBlobType fileName origType) s))
          = Some (mkToast error "Failed to load preview")
     else
       exists blob url,
         omap object_url
           (trace_of env (Dashboard.handlePreview user previewBlobType fileName origType) s)
         = [(blob, url)]
         /\ blob_type blob
            = previewBlobType fileName (default "image/png" origType)
         /\ d_previewName
              (d_after st
                 (trace_of env
                    (Dashboard.handlePreview user previewBlobType fileName origType) s))
            = Some fileName
         /\ d_previewUrl
              (d_after st
                 (trace_of env
                    (Dashboard.handlePreview user previewBlobType fileName origType) s))
            = Some url.
Proof.
  as_post. handlers. post_all; observe;
    (split; [reflexivity|]); (split; [reflexivity|]);
    first [ repeat split; reflexivity
          | eexists _, _; repeat split; reflexivity ].
Qed.

(** X10: a failed fetch keeps what was shown.  After [fetchProfile] by a
    signed-in user the profile in the state is the one the request
    returned, or the previous one when the request failed; after
    [fetchFiles] the same holds of the file list.  So from a blocking
    screen a failed "check again" leads to a blocking screen. *)
Theorem X10_failed_fetch_keeps_state
  {S : Type} (env : Env S) (u : User) (user : option User) (st : DashState) (s : S) :
  d_userProfile (d_after st (trace_of env (Dashboard.fetchProfile (Some u)) s))
  = match omap profile_answer (trace_of env (Dashboard.fetchProfile (Some u)) s) with
    | [Normal (Data p)] => Some p
    | _ => d_userProfile st
    end
  /\ d_files (d_after st (trace_of env (Dashboard.fetchFiles user) s))
     = match omap list_answer (trace_of env (Dashboard.fetchFiles user) s) with
       | [Normal (Data fs)] => fs
       | _ => d_files st
       end
  /\ (Dashboard.blocking (Dashboard.render false (d_userProfile st)) = true ->
      failed_call is_profile_select (trace_of env (Dashboard.fetchProfile (Some u)) s) = true ->
      Dashboard.blocking
        (d_screen (d_after st (trace_of env (Dashboard.fetchProfile (Some u)) s))) = true).
Proof.
  split; [|split].
  - as_post. handlers. post_all; reflexivity.
  - as_post. handlers. post_all; reflexivity.
  - intros Hblocked. unfold d_screen. as_post. handlers.
    post_all; intros H; try discriminate H; exact Hblocked.
Qed.

Lemma X10_witness :
  Dashboard.blocking
    (d_screen
       (d_after (mkDashState [] false true None (Some (mkUserProfile "user" "pending"))
                   false None None false)
          (trace_of Toy.env (Dashboard.fetchProfile (Some Toy.alice)) (Toy.office false))))
  = true.
Proof.
  apply (proj2 (proj2 (X10_failed_fetch_keeps_state Toy.env Toy.alice None
                         (mkDashState [] false true None
                            (Some (mkUserProfile "user" "pending")) false None None false)
                         (Toy.office false)))).
  - reflexivity.
  - vm_compute. reflexivity.
Defined.

(** ** More on the admin panel *)

Lemma no_button_on_admin_rows (row : Profile) (b : Admin.RowButton) :
  b ∈ Admin.rowButtons row -> p_role row <> "admin".
Proof.
  unfold Admin.rowButtons. intros Hin Hrole. rewrite Hrole in Hin. inversion Hin.
Qed.

(** X11: the admin panel never acts on an administrator.  A row whose
    role is [admin] has no button, so every status update and every user
    deletion started from a row names the id of a row that is not an
    administrator's, and no other id. *)
Theorem X11_admin_rows_are_protected
  {S : Type} (env : Env S) (users : list Profile) (actionLoading : option string)
  (row : Profile) (b : Admin.RowButton) (s : S) :
  Admin.clickable users actionLoading row b ->
  p_role row <> "admin"
  /\ forall uid,
       uid ∈ omap admin_target (trace_of env (Admin.onClick users row b) s) ->
       uid = id row.
Proof.
  intros (_ & Hb & _). split; [exact (no_button_on_admin_rows row b Hb)|].
  intros uid. destruct b; as_post; handlers; post_all; cbn;
    rewrite ?list_elem_of_singleton; intros H; first [exact H | inversion H].
Qed.

Lemma X11_witness :
  p_role Toy.bob <> "admin"
  /\ forall uid,
       uid ∈ omap admin_target
               (trace_of Toy.env (Admin.onClick Toy.staff Toy.bob Admin.DeleteUser)
                  (Toy.office true)) ->
       uid = "bob".
Proof.
  apply (X11_admin_rows_are_protected Toy.env Toy.staff None Toy.bob Admin.DeleteUser
           (Toy.office true)).
  split; [constructor|]. split; [|reflexivity]. cbn. repeat constructor.
Defined.

(** X12: the list of users on screen changes only after the backend
    accepted the request.  A status update replaces the status of the rows
    with that id, a deletion drops the rows with that id and keeps the
    others in their order; when the request fails, or the deletion is not
    confirmed, [setUsers] is not called, and a deletion that is not
    confirmed makes no call but the confirmation itself. *)
Theorem X12_users_list_follows_the_backend
  {S : Type} (env : Env S) (users : list Profile) (userId newStatus : string) (s : S) :
  omap users_set (trace_of env (Admin.updateUserStatus users userId newStatus) s)
  = (if succeeded_call is_admin_request
          (trace_of env (Admin.updateUserStatus users userId newStatus) s)
     then [map (fun u => if (id u =? userId)%string
                         then Admin.with_status u newStatus else u) users]
     else [])
  /\ omap users_set (trace_of env (Admin.deleteUser users userId) s)
     = (if succeeded_call is_admin_request (trace_of env (Admin.deleteUser users userId) s)
        then [filter (fun u => id u ≠ userId) users]
        else [])
  /\ (forall us u,
        us ∈ omap users_set (trace_of env (Admin.deleteUser users userId) s) ->
        u ∈ us <-> u ∈ users /\ id u <> userId)
  /\ (omap confirm_answer (trace_of env (Admin.deleteUser users userId) s) = [false] ->
      map ev_call (trace_of env (Admin.deleteUser users userId) s)
      = [Confirm "Are you sure you want to permanently delete this user?"]).
Proof.
  split; [|split; [|split]].
  - as_post. handlers. post_all; reflexivity.
  - as_post. handlers. post_all; reflexivity.
  - intros us u. as_post. handlers. post_all; cbn;
      rewrite ?list_elem_of_singleton; intros H; try (inversion H; fail); subst us;
      rewrite list_elem_of_filter; tauto.
  - as_post. handlers. post_all; intros H; first [discriminate | reflexivity].
Qed.

Lemma X12_witness :
  (forall us u,
      us ∈ omap users_set (trace_of Toy.env (Admin.deleteUser Toy.staff "bob")
                             (Toy.office true)) ->
      u ∈ us <-> u ∈ Toy.staff /\ id u <> "bob")
  /\ map ev_call
       (trace_of (fun c w => match c as c' return answer c' * Toy.World with
                             | Confirm _ => (false, w)
                             | c' => Toy.env c' w
                             end)
          (Admin.deleteUser Toy.staff "bob") (Toy.office true))
     = [Confirm "Are you sure you want to permanently delete this user?"].
Proof.
  split.
  - exact (proj1 (proj2 (proj2 (X12_users_list_follows_the_backend Toy.env Toy.staff
                                  "bob" "" (Toy.office true))))).
  - apply (proj2 (proj2 (proj2 (X12_users_list_follows_the_backend
                                  (fun c w => match c as c' return answer c' * Toy.World with
                                              | Confirm _ => (false, w)
                                              | c' => Toy.env c' w
                                              end)
                                  Toy.staff "bob" "" (Toy.office true))))).
    reflexivity.
Defined.

(** X13: adding a user from the panel.  The sign-up is sent once, with
    the typed e-mail and password and the status [approved].  When it
    returns a user, one status update to [approved] is sent for that
    user's id, and unless that request rejects the admin is told "User
    added successfully!" -- also when the update came back with an error,
    which is not looked at.  When the sign-up returns no user nothing
    more happens and nothing is shown; when it fails the error is shown
    in an alert and no update is sent. *)
Theorem X13_add_user_outcomes
  {S : Type} (env : Env S) (users : list Profile) (newUserEmail newUserPassword : string)
  (s : S) :
  exists answered,
    omap sign_up_call
      (trace_of env (Admin.handleAddUser newUserEmail newUserPassword) s)
    = [(newUserEmail, newUserPassword, "approved", answered)]
    /\ match answered with
       | Normal (Data (Some created)) =>
           status_updates (trace_of env (Admin.handleAddUser newUserEmail newUserPassword) s)
           = [(user_id created, "approved")]
           /\ omap alert_text
                (trace_of env (Admin.handleAddUser newUserEmail newUserPassword) s)
              = match omap status_update_answer
                        (trace_of env (Admin.handleAddUser newUserEmail newUserPassword) s)
                with
                | [Throw e] => ["Error adding user: " +:+ message e]
                | _ => ["User added successfully!"]
                end
       | Normal (Data None) =>
           external_calls (trace_of env (Admin.handleAddUser newUserEmail newUserPassword) s)
           = [AuthSignUp newUserEmail newUserPassword "approved"]
           /\ omap alert_text
                (trace_of env (Admin.handleAddUser newUserEmail newUserPassword) s) = []
       | Normal (Error e) | Throw e =>
           status_updates (trace_of env (Admin.handleAddUser newUserEmail newUserPassword) s)
           = []
           /\ omap alert_text
                (trace_of env (Admin.handleAddUser newUserEmail newUserPassword) s)
              = ["Error adding user: " +:+ message e]
       end.
Proof.
  as_post. handlers. post_all; eexists; (split; [reflexivity|]); split; reflexivity.
Qed.

(** ** The file grid *)

Lemma split_dotless s : dotless s -> Files.split Files.dot s = [s].
Proof.
  unfold dotless. induction s as [|a s IH]; intros H; [reflexivity|].
  cbn in H. apply Forall_cons in H as [Ha Hs]. cbn [Files.split].
  destruct (Ascii.eqb_spec a Files.dot) as [->|_]; [contradiction|].
  rewrite (IH Hs). reflexivity.
Qed.

Lemma split_not_nil sep s : Files.split sep s <> [].
Proof.
  destruct s as [|a s]; cbn [Files.split]; [discriminate|].
  destruct (Ascii.eqb a sep); [discriminate|].
  destruct (Files.split sep s); discriminate.
Qed.

Lemma append_empty (s : string) : "" +:+ s = s.
Proof. reflexivity. Qed.

Lemma append_String a (s t : string) : String a s +:+ t = String a (s +:+ t).
Proof. reflexivity. Qed.

Lemma split_after_dot_two pre suffix :
  exists h1 h2 t, Files.split Files.dot (pre +:+ String Files.dot suffix) = h1 :: h2 :: t.
Proof.
  induction pre as [|a pre (h1 & h2 & t & IH)].
  - rewrite append_empty. cbn [Files.split]. rewrite Ascii.eqb_refl.
    destruct (Files.split Files.dot suffix) as [|h t] eqn:E;
      [exfalso; exact (split_not_nil _ _ E)|].
    eauto.
  - rewrite append_String. cbn [Files.split]. rewrite IH.
    destruct (Ascii.eqb a Files.dot); eauto.
Qed.

Lemma pop_split_after_dot pre suffix :
  Files.pop (Files.split Files.dot (pre +:+ String Files.dot suffix))
  = Files.pop (Files.split Files.dot suffix).
Proof.
  unfold Files.pop. induction pre as [|a pre IH].
  - rewrite append_empty. cbn [Files.split]. rewrite Ascii.eqb_refl.
    destruct (Files.split Files.dot suffix) eqn:E; [|reflexivity].
    exfalso. exact (split_not_nil _ _ E).
  - rewrite append_String. cbn [Files.split]. rewrite <- IH.
    destruct (split_after_dot_two pre suffix) as (h1 & h2 & t & ->).
    destruct (Ascii.eqb a Files.dot); reflexivity.
Qed.

(** X14: what counts as the extension of a file.  It is computed from
    what follows the last dot of the name; a name without a dot is taken
    whole, so a file called [zip] is an archive. *)
Theorem X14_extension_of_a_name
  (toLowerCase : string -> string) (file : FileObject) :
  (dotless (fo_name file) ->
   Files.ext toLowerCase file = Files.or_empty (toLowerCase (fo_name file)))
  /\ (forall pre suffix,
        fo_name file = pre +:+ String Files.dot suffix -> dotless suffix ->
        Files.ext toLowerCase file = Files.or_empty (toLowerCase suffix)).
Proof.
  unfold Files.ext. split.
  - intros H. rewrite (split_dotless _ H). reflexivity.
  - intros pre suffix -> H.
    rewrite pop_split_after_dot, (split_dotless _ H). reflexivity.
Qed.

Lemma X14_witness :
  Files.ext (fun s => s) (mkFileObject "zip" None "" None) = "zip"
  /\ Files.ext (fun s => s) (mkFileObject "backup.2024.tar" None "" None) = "tar".
Proof.
  split.
  - apply (proj1 (X14_extension_of_a_name (fun s => s) (mkFileObject "zip" None "" None))).
    cbn. repeat constructor; discriminate.
  - apply (proj2 (X14_extension_of_a_name (fun s => s)
                    (mkFileObject "backup.2024.tar" None "" None))
             "backup.2024" "tar").
    + reflexivity.
    + cbn. repeat constructor; discriminate.
Defined.

Lemma filter_all_shown toLowerCase files :
  Files.filteredFiles toLowerCase Files.all files = files.
Proof.
  unfold Files.filteredFiles. induction files as [|f files IH]; [reflexivity|].
  cbn. f_equal. exact IH.
Qed.

Lemma filtered_sublist toLowerCase activeFilter files :
  sublist (Files.filteredFiles toLowerCase activeFilter files) files.
Proof.
  unfold Files.filteredFiles. induction files as [|f files IH]; [constructor|].
  cbn [List.filter]. destruct (Files.shown toLowerCase activeFilter f);
    [apply sublist_skip | apply sublist_cons]; exact IH.
Qed.

(** X15: the tabs of the grid.  A tab lists files of the state in their
    order, without repeating or inventing any, and the tab "All Files"
    lists them all; every file listed under Images, Videos or Documents
    is previewable, so its card has the View button, wired to the preview
    of that very file. *)
Theorem X15_tabs_of_the_grid
  (toLowerCase : string -> string) (activeFilter : Files.Filter)
  (files : list FileObject) :
  sublist (Files.filteredFiles toLowerCase activeFilter files) files
  /\ Files.filteredFiles toLowerCase Files.all files = files
  /\ forall file,
       In file (Files.filteredFiles toLowerCase activeFilter files) ->
       activeFilter = Files.image \/ activeFilter = Files.video
       \/ activeFilter = Files.document ->
       Files.isPreviewable toLowerCase file = true
       /\ exists stored,
            In (Dashboard.ClickView (fo_name file) stored)
              (Files.cardButtons toLowerCase file).
Proof.
  split; [apply filtered_sublist|]. split; [apply filter_all_shown|].
  intros file Hin Htab. unfold Files.filteredFiles in Hin.
  apply filter_In in Hin as [_ Hshown].
  assert (Files.isPreviewable toLowerCase file = true) as Hprev.
  { unfold Files.isPreviewable.
    destruct Htab as [-> | [-> | ->]]; cbn [Files.shown] in Hshown.
    - rewrite Hshown. reflexivity.
    - rewrite Hshown. rewrite !orb_true_r. reflexivity.
    - apply orb_true_iff in Hshown as [H|H]; rewrite H;
        rewrite ?orb_true_r; reflexivity. }
  split; [exact Hprev|]. unfold Files.cardButtons. cbv zeta. rewrite Hprev.
  eexists. left. reflexivity.
Qed.

Lemma X15_witness :
  Files.isPreviewable (fun s => s) (mkFileObject "scan.pdf" None "" None) = true
  /\ exists stored,
       In (Dashboard.ClickView "scan.pdf" stored)
         (Files.cardButtons (fun s => s) (mkFileObject "scan.pdf" None "" None)).
Proof.
  apply (proj2 (proj2 (X15_tabs_of_the_grid (fun s => s) Files.document
                         [mkFileObject "a.zip" None "" None;
                          mkFileObject "scan.pdf" None "" None]))
           (mkFileObject "scan.pdf" None "" None)).
  - cbn. left. reflexivity.
  - right. right. reflexivity.
Defined.

(** ** The sign-in form *)

Lemma JsString_eqb_eq (a b : Auth.JsString) : Auth.JsString_eqb a b = true -> a = b.
Proof.
  unfold Auth.JsString_eqb.
  revert b; induction a as [|x a IH]; intros [|y b]; cbn; try discriminate; auto.
  intros H. apply andb_prop in H as [Hlen H]. apply andb_prop in H as [Hxy H].
  apply N.eqb_eq in Hxy. subst y. f_equal. apply IH.
  rewrite Hlen. exact H.
Qed.

Lemma View_eqb_eq (a b : Auth.View) : Auth.View_eqb a b = true -> a = b.
Proof. destruct a, b; cbn; congruence. Qed.

Lemma commit_in_step (before after : Auth.State) :
  Auth.in_step before ->
  Auth.passwordStrength after = Auth.passwordStrength before ->
  Auth.in_step (Auth.commit before after).
Proof.
  intros Hb Hs. unfold Auth.commit.
  destruct (Auth.JsString_eqb _ _ && Auth.View_eqb _ _) eqn:E.
  - apply andb_prop in E as [Ep Ev].
    apply JsString_eqb_eq in Ep. apply View_eqb_eq in Ev.
    intros Hv. rewrite Hs, <- Ep. apply Hb. congruence.
  - unfold Auth.strengthEffect, Auth.in_step.
    destruct (Auth.view after) eqn:Ev; intros Hv; [congruence | reflexivity].
Qed.

Lemma reachable_in_step origin st : Auth.reachable origin st -> Auth.in_step st.
Proof.
  induction 1 as [|st i _ IH _|S env s submitted st ev _ _ _ IH _].
  - intros Hv. discriminate Hv.
  - apply commit_in_step; [exact IH|]. destruct i; reflexivity.
  - apply commit_in_step; [exact IH|]. destruct (Auth.ev_call ev); reflexivity.
Qed.

Lemma strength_le_4 pw : (Auth.strength pw <= 4)%nat.
Proof.
  unfold Auth.strength.
  destruct (8 <=? length pw)%nat, (Auth.test Auth.is_upper pw),
    (Auth.test Auth.is_digit pw), (Auth.test Auth.is_special pw); cbn; lia.
Qed.

Lemma test_app_l class a b :
  Auth.test class a = true -> Auth.test class (a ++ b) = true.
Proof. unfold Auth.test. rewrite existsb_app. intros ->. reflexivity. Qed.

Lemma test_app_r class a b :
  Auth.test class b = true -> Auth.test class (a ++ b) = true.
Proof. unfold Auth.test. rewrite existsb_app. intros ->. apply orb_true_r. Qed.

(** X16. The strength of a password is a number from 0 to 4, and typing
    more characters, before or after what is there, never lowers it. *)
Theorem X16_strength_grows_with_the_password (before pw after : Auth.JsString) :
  (Auth.strength pw <= Auth.strength (before ++ pw ++ after) <= 4)%nat.
Proof.
  split; [|apply strength_le_4].
  unfold Auth.strength.
  assert (Hlen : (length pw <= length (before ++ pw ++ after))%nat)
    by (rewrite !length_app; lia).
  assert (Hin : forall class, Auth.test class pw = true ->
                 Auth.test class (before ++ pw ++ after) = true)
    by (intros class H; apply test_app_r, test_app_l, H).
  pose proof (Hin Auth.is_upper) as Hu.
  pose proof (Hin Auth.is_digit) as Hd.
  pose proof (Hin Auth.is_special) as Hs.
  destruct (Nat.leb_spec 8 (length pw)) as [L|L];
    destruct (Nat.leb_spec 8 (length (before ++ pw ++ after))) as [L'|L'];
    try lia;
    destruct (Auth.test Auth.is_upper pw);
    try (rewrite (Hu eq_refl)); destruct (Auth.test Auth.is_upper (before ++ pw ++ after));
    destruct (Auth.test Auth.is_digit pw);
    try (rewrite (Hd eq_refl)); destruct (Auth.test Auth.is_digit (before ++ pw ++ after));
    destruct (Auth.test Auth.is_special pw);
    try (rewrite (Hs eq_refl)); destruct (Auth.test Auth.is_special (before ++ pw ++ after));
    cbn; lia.
Qed.

Ltac submit env :=
  unfold Auth.after, Auth.trace_of, Auth.result_of, Auth.handleSubmit;
  cbn;
  repeat match goal with
    | |- context [env ?c ?s] =>
        let x := fresh "x" in
        let s' := fresh "s" in
        destruct (env c s) as [x s']; cbn in x;
        try match type of x with
          | completion _ => destruct x as [[[]|?]|?]
          | unit => destruct x
          end;
        cbn
    end.

(** X17. However the visitor got to the form's state, an account is
    requested only for a password that has at least three of the four
    features the strength counts; the request carries the e-mail, the
    password and the role of the form, and status 'pending'. *)
Theorem X17_no_account_for_a_weak_password {S} origin (env : Auth.Env S) s st req :
  Auth.reachable origin st ->
  In req (omap Auth.sign_up_request (Auth.trace_of env (Auth.handleSubmit origin st) s)) ->
  req = (Auth.email st, Auth.password st, Auth.requestedRole st, "pending")
  /\ (3 <= Auth.strength (Auth.password st))%nat.
Proof.
  intros Hr. apply reachable_in_step in Hr. unfold Auth.in_step in Hr.
  destruct (Auth.view st) eqn:Ev.
  - destruct (Auth.mode st) eqn:Em; submit env; rewrite ?Ev, ?Em; submit env;
      cbn; intros [].
  - rewrite <- (Hr eq_refl).
    unfold Auth.trace_of, Auth.handleSubmit. rewrite Ev.
    destruct (Auth.passwordStrength st <? 3)%nat eqn:L; submit env;
      cbn; intros H; repeat destruct H as [H|H]; try contradiction;
      subst req; split; try reflexivity; apply Nat.ltb_ge; exact L.
Qed.

Lemma X17_witness :
  Auth.reachable "https://vault.test" Auth.applicant
  /\ In ("new@vault.test", Auth.Passw0rd, Auth.user, "pending")
       (omap Auth.sign_up_request
          (Auth.trace_of Auth.accepting
             (Auth.handleSubmit "https://vault.test" Auth.applicant) tt))
  /\ (3 <= Auth.strength (Auth.password Auth.applicant))%nat.
Proof.
  assert (Hr : Auth.reachable "https://vault.test" Auth.applicant)
    by (repeat (apply Auth.reachable_input; [|reflexivity]); apply Auth.reachable_initial).
  assert (Hin : In ("new@vault.test", Auth.Passw0rd, Auth.user, "pending")
                  (omap Auth.sign_up_request
                     (Auth.trace_of Auth.accepting
                        (Auth.handleSubmit "https://vault.test" Auth.applicant) tt)))
    by (left; reflexivity).
  split; [exact Hr|]. split; [exact Hin|].
  exact (proj2 (X17_no_account_for_a_weak_password "https://vault.test" Auth.accepting tt
                  Auth.applicant _ Hr Hin)).
Defined.

(** X18. A submission never rejects and ends with the form no longer
    loading.  A sign-up with a strength below 3 sends nothing and shows
    the weak-password error.  Every other submission sends exactly one
    request, the one of its view and mode.  If that request fails, its
    message is shown as an error, the view stays and nothing is pushed to
    the router.  If it succeeds: a sign-up announces the account and
    returns to the sign-in view; a password sign-in pushes "/dashboard"
    and shows no message; a magic link is announced as sent. *)
Theorem X18_submit_outcomes {S} origin (env : Auth.Env S) s st :
  let tr := Auth.trace_of env (Auth.handleSubmit origin st) s in
  let st' := Auth.after st tr in
  Auth.result_of env (Auth.handleSubmit origin st) s = Normal tt
  /\ Auth.loading st' = false
  /\ if Auth.View_eqb (Auth.view st) Auth.sign_up && (Auth.passwordStrength st <? 3)%nat
     then Auth.requests tr = []
          /\ omap Auth.pushed tr = []
          /\ Auth.view st' = Auth.view st
          /\ Auth.form_message st'
             = Some (Auth.mkMessage error "Password is too weak. Make it stronger.")
     else Auth.requests tr = [Auth.request_of origin st]
          /\ match omap Auth.request_failure tr with
             | e :: _ =>
                 Auth.form_message st' = Some (Auth.mkMessage error (message e))
                 /\ Auth.view st' = Auth.view st
                 /\ omap Auth.pushed tr = []
             | [] =>
                 match Auth.view st, Auth.mode st with
                 | Auth.sign_up, _ =>
                     Auth.form_message st'
                     = Some (Auth.mkMessage success
                               "Account created! Waiting for Admin approval.")
                     /\ Auth.view st' = Auth.sign_in
                     /\ omap Auth.pushed tr = []
                 | Auth.sign_in, Auth.with_password =>
                     omap Auth.pushed tr = ["/dashboard"]
                     /\ Auth.form_message st' = None
                     /\ Auth.view st' = Auth.sign_in
                 | Auth.sign_in, Auth.magic_link =>
                     Auth.form_message st'
                     = Some (Auth.mkMessage success "Magic link sent! Check your email.")
                     /\ Auth.view st' = Auth.sign_in
                     /\ omap Auth.pushed tr = []
                 end
             end.
Proof.
  intros tr st'. subst tr st'.
  unfold Auth.request_of.
  destruct (Auth.view st) eqn:Ev; [destruct (Auth.mode st) eqn:Em|];
    unfold Auth.after, Auth.trace_of, Auth.result_of, Auth.handleSubmit;
    rewrite ?Ev, ?Em;
    destruct (Auth.passwordStrength st <? 3)%nat eqn:L;
    submit env; unfold Auth.commit; cbn; rewrite ?Ev, ?Em; cbn;
    repeat match goal with
      | |- context [if ?b then _ else _] => destruct b
      end;
    cbn; rewrite ?Ev, ?Em; repeat split; reflexivity.
Qed.
